(** * GGUF interop loader (sharktank/types/gguf_interop/base.py)

    A shallow embedding of the loader that turns a parsed GGUF container
    (metadata fields plus tensor descriptors) into a property dictionary and
    a namespace of inference tensors, together with the properties the
    specification states about it.

    Python dictionaries are finite maps ([gmap string _]); Python exceptions
    are the constructors of [exn] carried by the [result] monad; the torch
    tensor objects the loader creates and annotates live in an explicit
    object store ([heap]), so that object identity is visible. *)

From Stdlib Require Import ZArith NArith Strings.Byte.
From stdpp Require Import base option list strings gmap fin_maps.

Open Scope Z_scope.

#[local] Set Warnings "-register-all,-clear-no-such-hyp".

(** ** Exceptions and the result monad *)

(** The container format's value-type tags (the [GGUFValueType] enumeration of
    the gguf package, whose members [STRING] and [ARRAY] the loader names). *)
Inductive GGUFValueType :=
| UINT8 | INT8 | UINT16 | INT16 | UINT32 | INT32 | FLOAT32 | BOOL
| STRING | ARRAY | UINT64 | INT64 | FLOAT64.

Global Instance GGUFValueType_eq_dec : EqDecision GGUFValueType.
Proof. solve_decision. Defined.

(** Exceptions.  The [ValueError]s of base.py are kept apart by message and
    carry exactly what the message interpolates:
    - [UnsupportedArrayType types]: "Unsupported array type {field.types}"
    - [UnsupportedArrayElementType t]: "Unsupported array element type f{t}"
    - [InvalidFieldType]: "Invalid field type." (interpolates nothing)
    - [UnsupportedGgufTensorType n]: "Unsupported gguf tensor type: {n}"
    The others are raised by the interpreter, by numpy ([reshape], [view]) or
    by torch ([view]). *)
Inductive exn :=
| UnsupportedArrayType (types : list GGUFValueType)
| UnsupportedArrayElementType (element_type : GGUFValueType)
| InvalidFieldType
| UnsupportedGgufTensorType (type_name : string)
| AssertionError
| IndexError
| UnicodeDecodeError
| NumpyError
| TorchError.

Inductive result (A : Type) :=
| Ok (a : A)
| Raise (e : exn).
Arguments Ok {A} a.
Arguments Raise {A} e.

Global Instance result_ret : MRet result := fun A a => Ok a.
Global Instance result_bind : MBind result := fun A B f m =>
  match m with
  | Ok a => f a
  | Raise e => Raise e
  end.

(** A list comprehension whose body may raise: left to right, first exception
    wins. *)
Fixpoint comprehension {A B} (f : A -> result B) (l : list A) : result (list B) :=
  match l with
  | [] => Ok []
  | x :: l' => y ← f x; ys ← comprehension f l'; Ok (y :: ys)
  end.

(** [l[i]] on a Python list, negative indices counting from the end. *)
Definition py_getitem {A} (l : list A) (i : Z) : result A :=
  let n := Z.of_nat (length l) in
  let j := if i <? 0 then i + n else i in
  if (j <? 0) || (n <=? j) then Raise IndexError
  else match l !! Z.to_nat j with
       | Some x => Ok x
       | None => Raise IndexError
       end.

(** ** numpy arrays and scalars *)

Inductive np_dtype :=
| np_bool | np_uint8 | np_int8 | np_uint16 | np_int16 | np_uint32 | np_int32
| np_uint64 | np_int64 | np_float16 | np_float32 | np_float64.

Global Instance np_dtype_eq_dec : EqDecision np_dtype.
Proof. solve_decision. Defined.

Definition np_itemsize (d : np_dtype) : Z :=
  match d with
  | np_bool | np_uint8 | np_int8 => 1
  | np_uint16 | np_int16 | np_float16 => 2
  | np_uint32 | np_int32 | np_float32 => 4
  | np_uint64 | np_int64 | np_float64 => 8
  end.

(** A (C-contiguous) array: element type, shape and the raw bytes it views. *)
Record ndarray := mk_ndarray {
  nd_dtype : np_dtype;
  nd_shape : list Z;
  nd_buffer : list byte;
}.

Definition shape_size (shape : list Z) : Z := foldr Z.mul 1 shape.

Definition nd_size (a : ndarray) : Z := shape_size (nd_shape a).

(** Python values that end up in the property dictionary.  A [str] is held by
    its UTF-8 encoding; a float by the format and bit pattern of the numpy
    scalar it was converted from (the conversion to a Python float is exact). *)
Inductive py_value :=
| PyStr (s : string)
| PyInt (z : Z)
| PyBool (b : bool)
| PyFloat (format : np_dtype) (bits : Z)
| PyList (l : list py_value)
| NpGeneric (dtype : np_dtype) (raw : list byte)
| NpArray (a : ndarray).

Definition le_unsigned (bs : list byte) : Z :=
  foldr (fun b acc => Z.of_N (Byte.to_N b) + 256 * acc) 0 bs.

Definition le_signed (bs : list byte) : Z :=
  let u := le_unsigned bs in
  let w := 8 * Z.of_nat (length bs) in
  if u <? 2 ^ (w - 1) then u else u - 2 ^ w.

(** [numpy.generic.tolist]: the Python scalar of a numpy scalar. *)
Definition np_tolist (dtype : np_dtype) (raw : list byte) : py_value :=
  match dtype with
  | np_bool => PyBool (negb (le_unsigned raw =? 0))
  | np_uint8 | np_uint16 | np_uint32 | np_uint64 => PyInt (le_unsigned raw)
  | np_int8 | np_int16 | np_int32 | np_int64 => PyInt (le_signed raw)
  | np_float16 | np_float32 | np_float64 => PyFloat dtype (le_unsigned raw)
  end.

(** [a[0]]: a numpy scalar for a non-empty one-dimensional array, the first
    sub-array for a higher rank; [IndexError] on a 0-d or empty array. *)
Definition nd_getitem0 (a : ndarray) : result py_value :=
  match nd_shape a with
  | [] => Raise IndexError
  | n :: rest =>
    if n <=? 0 then Raise IndexError
    else match rest with
         | [] => Ok (NpGeneric (nd_dtype a)
                       (take (Z.to_nat (np_itemsize (nd_dtype a))) (nd_buffer a)))
         | _ => Ok (NpArray (mk_ndarray (nd_dtype a) rest
                       (take (Z.to_nat (np_itemsize (nd_dtype a) * shape_size rest))
                             (nd_buffer a))))
         end
  end.

(** ** UTF-8 decoding: [str(bytes(part), encoding="utf8")] *)

Definition in_range (lo hi b : N) : bool := ((lo <=? b) && (b <=? hi))%N.

(** Strict UTF-8 well-formedness (no overlong forms, no surrogates, nothing
    above U+10FFFF), on byte values. *)
Fixpoint utf8_valid (bs : list N) : bool :=
  match bs with
  | [] => true
  | b0 :: r0 =>
    if (b0 <? 128)%N then utf8_valid r0
    else if in_range 194 223 b0 then
      match r0 with
      | b1 :: r1 => in_range 128 191 b1 && utf8_valid r1
      | _ => false
      end
    else if in_range 224 239 b0 then
      match r0 with
      | b1 :: b2 :: r2 =>
        in_range (if (b0 =? 224)%N then 160 else 128)
                 (if (b0 =? 237)%N then 159 else 191) b1
        && in_range 128 191 b2 && utf8_valid r2
      | _ => false
      end
    else if in_range 240 244 b0 then
      match r0 with
      | b1 :: b2 :: b3 :: r3 =>
        in_range (if (b0 =? 240)%N then 144 else 128)
                 (if (b0 =? 244)%N then 143 else 191) b1
        && in_range 128 191 b2 && in_range 128 191 b3 && utf8_valid r3
      | _ => false
      end
    else false
  end.

Definition nd_bytes (a : ndarray) : list byte := nd_buffer a.

Definition str_utf8 (bs : list byte) : result string :=
  if utf8_valid (map Byte.to_N bs) then Ok (String.string_of_list_byte bs)
  else Raise UnicodeDecodeError.

(** ** The reader's records *)

Record ReaderField := mk_field {
  field_name : string;
  field_parts : list ndarray;
  field_data : list Z;
  field_types : list GGUFValueType;
}.

Record ReaderTensor := mk_tensor {
  tensor_name : string;
  tensor_type_name : string;
  tensor_shape : list N;
  tensor_data : ndarray;
}.

(** What [GGUFReader(gguf_path)] exposes: [reader.fields.values()] and
    [reader.tensors], both in file order. *)
Record GGUFReader := mk_reader {
  reader_fields : list ReaderField;
  reader_tensors : list ReaderTensor;
}.

(** ** Metadata extraction *)

Definition _sanitize_scalar (scalar : py_value) : py_value :=
  match scalar with
  | NpGeneric dtype raw => np_tolist dtype raw
  | _ => scalar
  end.

Section Properties.

(** [GGUFReader.gguf_scalar_to_np], the reader's table from scalar type tags to
    numpy types; the loader only asks whether a tag is a key of it. *)
Variable gguf_scalar_to_np : GGUFValueType -> option np_dtype.

Definition _load_array (field : ReaderField) : result (list py_value) :=
  if negb (length (field_types field) =? 2)%nat then
    Raise (UnsupportedArrayType (field_types field))
  else
    element_type ← py_getitem (field_types field) 1;
    if bool_decide (element_type = STRING) then
      comprehension
        (fun parts_index =>
           part ← py_getitem (field_parts field) parts_index;
           s ← str_utf8 (nd_bytes part);
           Ok (PyStr s))
        (field_data field)
    else if bool_decide (is_Some (gguf_scalar_to_np element_type)) then
      comprehension
        (fun parts_index =>
           part ← py_getitem (field_parts field) parts_index;
           item ← nd_getitem0 part;
           Ok (_sanitize_scalar item))
        (field_data field)
    else Raise (UnsupportedArrayElementType element_type).

(** The body of the [for field in reader.fields.values()] loop, on the
    dictionary built so far. *)
Definition _load_field (field : ReaderField) (properties : gmap string py_value)
  : result (gmap string py_value) :=
  if (length (field_types field) =? 1)%nat then
    curr_type ← py_getitem (field_types field) 0;
    if bool_decide (curr_type = STRING) then
      part ← py_getitem (field_parts field) (-1);
      s ← str_utf8 (nd_bytes part);
      Ok (<[field_name field := PyStr s]> properties)
    else if bool_decide (is_Some (gguf_scalar_to_np curr_type)) then
      part ← py_getitem (field_parts field) (-1);
      item ← nd_getitem0 part;
      Ok (<[field_name field := _sanitize_scalar item]> properties)
    else Ok properties
  else
    type0 ← py_getitem (field_types field) 0;
    if bool_decide (type0 = ARRAY) then
      l ← _load_array field;
      Ok (<[field_name field := PyList l]> properties)
    else Raise InvalidFieldType.

Fixpoint _load_fields (fields : list ReaderField) (properties : gmap string py_value)
  : result (gmap string py_value) :=
  match fields with
  | [] => Ok properties
  | field :: rest =>
    properties' ← _load_field field properties;
    _load_fields rest properties'
  end.

Definition _load_properties (reader : GGUFReader) : result (gmap string py_value) :=
  _load_fields (reader_fields reader) {[ "schema" := PyStr "GGUF" ]}.

End Properties.

(** ** numpy reshape and view *)

Definition npy_intp_max : Z := 2 ^ 63 - 1.

(** [a.reshape(newshape)]: one negative entry stands for the dimension that
    makes the sizes agree; no copy is made, the result views the same bytes. *)
Definition np_reshape (a : ndarray) (newshape : list Z) : result ndarray :=
  let s_known := shape_size (filter (fun d => 0 <= d) newshape) in
  if negb (forallb (fun d => d <=? npy_intp_max) newshape) then Raise NumpyError
  else
    match length (filter (fun d => d < 0) newshape) with
    | O =>
      if s_known =? nd_size a
      then Ok (mk_ndarray (nd_dtype a) newshape (nd_buffer a))
      else Raise NumpyError
    | S O =>
      if (s_known =? 0) || negb (nd_size a mod s_known =? 0) then Raise NumpyError
      else Ok (mk_ndarray (nd_dtype a)
                 (map (fun d => if d <? 0 then nd_size a / s_known else d) newshape)
                 (nd_buffer a))
    | _ => Raise NumpyError
    end.

(** The shape of a view under another element size: the last axis is rescaled
    and must hold a whole number of new elements. *)
Definition view_shape (shape : list Z) (old_itemsize new_itemsize : Z)
  : option (list Z) :=
  if old_itemsize =? new_itemsize then Some shape
  else match reverse shape with
       | [] => None
       | last :: front =>
         if (last * old_itemsize) mod new_itemsize =? 0
         then Some (reverse front ++ [last * old_itemsize / new_itemsize])
         else None
       end.

(** [a.view(dtype)]: the same bytes under another element type. *)
Definition np_view (a : ndarray) (dtype : np_dtype) : result ndarray :=
  match view_shape (nd_shape a) (np_itemsize (nd_dtype a)) (np_itemsize dtype) with
  | Some shape => Ok (mk_ndarray dtype shape (nd_buffer a))
  | None => Raise NumpyError
  end.

(** ** torch tensor objects *)

Inductive torch_dtype :=
| torch_of_numpy (d : np_dtype)
| torch_bfloat16.

Global Instance torch_dtype_eq_dec : EqDecision torch_dtype.
Proof. solve_decision. Defined.

Definition torch_itemsize (d : torch_dtype) : Z :=
  match d with
  | torch_of_numpy d => np_itemsize d
  | torch_bfloat16 => 2
  end.

Record ExternalTensorTrait := mk_trait {
  external_name : string;
  external_scope : string;
}.

(** A torch tensor object: what it views, and the Python attribute
    [_turbine_external_tensor] that [ExternalTensorTrait.set] assigns. *)
Record Tensor := mk_Tensor {
  t_dtype : torch_dtype;
  t_shape : list Z;
  t_storage : list byte;
  _turbine_external_tensor : option ExternalTensorTrait;
}.

(** The object store: every tensor object created so far, in creation order.
    An object's identity is its position. *)
Abbreviation tensor_ref := nat (only parsing).
Abbreviation heap := (list Tensor) (only parsing).

Definition Torch (A : Type) : Type := heap -> result (A * heap).

Global Instance Torch_ret : MRet Torch := fun A a h => Ok (a, h).
Global Instance Torch_bind : MBind Torch := fun A B f m h =>
  match m h with
  | Ok (a, h') => f a h'
  | Raise e => Raise e
  end.

Definition lift {A} (r : result A) : Torch A := fun h =>
  match r with
  | Ok a => Ok (a, h)
  | Raise e => Raise e
  end.

Definition raise {A} (e : exn) : Torch A := fun _ => Raise e.

(** [torch.as_tensor(a)]: a new tensor object sharing the array's memory. *)
Definition torch_as_tensor (a : ndarray) : Torch tensor_ref := fun h =>
  Ok (length h,
      h ++ [mk_Tensor (torch_of_numpy (nd_dtype a)) (nd_shape a) (nd_buffer a) None]).

(** [trait.set(t)]: assigns the attribute on the object [t] itself. *)
Definition ExternalTensorTrait_set (trait : ExternalTensorTrait) (t : tensor_ref)
  : Torch unit := fun h =>
  Ok (tt, alter (fun o => mk_Tensor (t_dtype o) (t_shape o) (t_storage o) (Some trait))
                t h).

(** [t.view(dtype=dtype)]: a new tensor object over the same storage; Python
    attributes of [t] are not carried over to it.  (References handed out by
    the store are never dangling; that case is there for totality.) *)
Definition Tensor_view (t : tensor_ref) (dtype : torch_dtype) : Torch tensor_ref :=
  fun h =>
  match h !! t with
  | None => Raise TorchError
  | Some o =>
    match view_shape (t_shape o) (torch_itemsize (t_dtype o)) (torch_itemsize dtype) with
    | Some shape => Ok (length h, h ++ [mk_Tensor dtype shape (t_storage o) None])
    | None => Raise TorchError
    end
  end.

(** ** Tensor materialization and dispatch *)

Definition _externalize_tensor (name : string) (data : ndarray)
    (logical_shape : option (list Z)) : Torch tensor_ref :=
  data_tensor ←
    match logical_shape with
    | Some logical_shape =>
      reshaped ← lift (np_reshape data logical_shape);
      torch_as_tensor reshaped
    | None => torch_as_tensor data
    end;
  _ ← ExternalTensorTrait_set (mk_trait name "") data_tensor;
  mret data_tensor.

(** The classes of [layouts] that [_quantized_types] maps to. *)
Inductive layout_class := Q4_1 | Q4_K | Q5_K | Q6_K | Q8_0.

(** Modelled from the spec: the tensor classes ([DefaultPrimitiveTensor] of
    [..tensors], the five classes of [layouts]) are not under src/.  An
    inference tensor has a name and a backing torch tensor; a quantized one is
    built from (name, raw materialized tensor, logical shape) and keeps the raw
    undecoded bytes.  Their constructors are taken to record their arguments. *)
Inductive InferenceTensor :=
| DefaultPrimitiveTensor (name : string) (data : tensor_ref)
| QuantizedTensor (layout : layout_class) (name : string) (raw : tensor_ref)
                  (shape : list Z).

Definition _quantized_types (type_name : string) : option layout_class :=
  if bool_decide (type_name = "Q4_1") then Some Q4_1
  else if bool_decide (type_name = "Q4_K") then Some Q4_K
  else if bool_decide (type_name = "Q5_K") then Some Q5_K
  else if bool_decide (type_name = "Q6_K") then Some Q6_K
  else if bool_decide (type_name = "Q8_0") then Some Q8_0
  else None.

Definition _wrap_tensor (name : string) (logical_shape : list Z) (type_name : string)
    (data : ndarray) : Torch InferenceTensor :=
  let logical_shape := reverse logical_shape in
  if bool_decide (type_name ∈ ["F16"; "F32"; "F64"]) then
    data_tensor ← _externalize_tensor name data (Some logical_shape);
    mret (DefaultPrimitiveTensor name data_tensor)
  else if bool_decide (type_name = "BF16") then
    if negb (bool_decide (nd_dtype data = np_uint8)) then raise AssertionError
    else
      as_int16 ← lift (np_view data np_int16);
      data_tensor ← _externalize_tensor name as_int16 (Some logical_shape);
      viewed ← Tensor_view data_tensor torch_bfloat16;
      mret (DefaultPrimitiveTensor name viewed)
  else
    match _quantized_types type_name with
    | Some quantized_type =>
      raw ← _externalize_tensor name data None;
      mret (QuantizedTensor quantized_type name raw logical_shape)
    | None => raise (UnsupportedGgufTensorType type_name)
    end.

(** ** Dataset assembly *)

(** Modelled from the spec: [Theta] and [Dataset] of [..theta] are not under
    src/.  The tensor namespace is built from the completed name-to-tensor
    mapping; a dataset owns a property mapping and a root tensor namespace. *)
Record Theta := mk_Theta {
  theta_tensors : gmap string InferenceTensor;
}.

Record Dataset := mk_Dataset {
  properties : gmap string py_value;
  root_theta : Theta;
}.

Section Assembly.

Variable gguf_scalar_to_np : GGUFValueType -> option np_dtype.

(** The body of the [for tensor in reader.tensors] loop up to the store into
    the mapping: the declared shape as Python integers, then the dispatch. *)
Definition _load_tensor (tensor : ReaderTensor) : Torch InferenceTensor :=
  let shape := map Z.of_N (tensor_shape tensor) in
  _wrap_tensor (tensor_name tensor) shape (tensor_type_name tensor)
               (tensor_data tensor).

(** The loop, on the mapping built so far. *)
Fixpoint _load_tensors (descriptors : list ReaderTensor)
    (tensors : gmap string InferenceTensor) : Torch (gmap string InferenceTensor) :=
  match descriptors with
  | [] => mret tensors
  | tensor :: rest =>
    gguf_tensor ← _load_tensor tensor;
    _load_tensors rest (<[tensor_name tensor := gguf_tensor]> tensors)
  end.

Definition load_file (reader : GGUFReader) : Torch Dataset :=
  properties ← lift (_load_properties gguf_scalar_to_np reader);
  tensors ← _load_tensors (reader_tensors reader) ∅;
  mret (mk_Dataset properties (mk_Theta tensors)).

Definition load_properties (reader : GGUFReader) : result (gmap string py_value) :=
  _load_properties gguf_scalar_to_np reader.

End Assembly.

(** Modelled from the spec: the [shape] of the tensor classes is not under
    src/.  The logical shape an inference tensor reports is that of its backing
    tensor for a primitive tensor, the one it was built with for a quantized
    one. *)
Definition inference_shape (h : heap) (t : InferenceTensor) : option (list Z) :=
  match t with
  | DefaultPrimitiveTensor _ data => t_shape <$> h !! data
  | QuantizedTensor _ _ _ shape => Some shape
  end.

(** The torch tensor object held by the leaf stored in the namespace. *)
Definition leaf_tensor (t : InferenceTensor) : tensor_ref :=
  match t with
  | DefaultPrimitiveTensor _ data => data
  | QuantizedTensor _ _ raw _ => raw
  end.

(** The object [_externalize_tensor] creates for an array and a name: it views
    the array's bytes under the array's shape and carries the annotation. *)
Definition externalized (name : string) (a : ndarray) : Tensor :=
  mk_Tensor (torch_of_numpy (nd_dtype a)) (nd_shape a) (nd_buffer a)
            (Some (mk_trait name "")).

(** ** Well-formed containers *)

Definition is_ok {A} (r : result A) : bool :=
  match r with
  | Ok _ => true
  | Raise _ => false
  end.

(** A data segment that decodes as text, and one that holds a scalar. *)
Definition text_part (part : ndarray) : bool :=
  utf8_valid (map Byte.to_N (nd_bytes part)).

Definition scalar_part (part : ndarray) : bool :=
  match nd_shape part with
  | n :: _ => 0 <? n
  | [] => false
  end.

Definition part_at (parts : list ndarray) (good : ndarray -> bool) (i : Z) : bool :=
  match py_getitem parts i with
  | Ok part => good part
  | Raise _ => false
  end.

(** A well-formed field: a string (one tag, a final segment of UTF-8 text), a
    known-numeric scalar (one tag of the table, a final segment holding a
    value), or an array (the tags [ARRAY] and an element tag that is a string
    or known-numeric, every data index naming a segment of that kind). *)
Definition field_well_formed (table : GGUFValueType -> option np_dtype)
    (field : ReaderField) : bool :=
  match field_types field with
  | [t] =>
    if bool_decide (t = STRING) then part_at (field_parts field) text_part (-1)
    else if bool_decide (is_Some (table t))
         then part_at (field_parts field) scalar_part (-1)
         else false
  | [container; t] =>
    if negb (bool_decide (container = ARRAY)) then false
    else if bool_decide (t = STRING)
    then forallb (part_at (field_parts field) text_part) (field_data field)
    else if bool_decide (is_Some (table t))
         then forallb (part_at (field_parts field) scalar_part) (field_data field)
         else false
  | _ => false
  end.

(** A descriptor whose tensor can be reconstructed: a known encoding whose raw
    view fits the declared shape. *)
Definition tensor_reconstructs (tensor : ReaderTensor) : bool :=
  let logical_shape := reverse (map Z.of_N (tensor_shape tensor)) in
  if bool_decide (tensor_type_name tensor ∈ ["F16"; "F32"; "F64"]) then
    is_ok (np_reshape (tensor_data tensor) logical_shape)
  else if bool_decide (tensor_type_name tensor = "BF16") then
    bool_decide (nd_dtype (tensor_data tensor) = np_uint8)
    && match np_view (tensor_data tensor) np_int16 with
       | Ok as_int16 => is_ok (np_reshape as_int16 logical_shape)
       | Raise _ => false
       end
  else bool_decide (is_Some (_quantized_types (tensor_type_name tensor))).

(** ** Concrete containers *)

(** The table of the gguf package. *)
Definition gguf_py_scalar_to_np (t : GGUFValueType) : option np_dtype :=
  match t with
  | UINT8 => Some np_uint8
  | INT8 => Some np_int8
  | UINT16 => Some np_uint16
  | INT16 => Some np_int16
  | UINT32 => Some np_uint32
  | INT32 => Some np_int32
  | FLOAT32 => Some np_float32
  | UINT64 => Some np_uint64
  | INT64 => Some np_int64
  | FLOAT64 => Some np_float64
  | BOOL => Some np_bool
  | STRING | ARRAY => None
  end.

Definition bytes_of (s : string) : list byte := String.list_byte_of_string s.

Definition u32 (n : N) : ndarray :=
  mk_ndarray np_uint32 [1] [default (x00 : byte) (Byte.of_N n); x00; x00; x00].

Definition u64 (n : N) : ndarray :=
  mk_ndarray np_uint64 [1]
    [default (x00 : byte) (Byte.of_N n); x00; x00; x00; x00; x00; x00; x00].

Definition text (s : string) : ndarray :=
  mk_ndarray np_uint8 [Z.of_nat (String.length s)] (bytes_of s).

(** A string field as the reader lays it out: key length, key, value type,
    value length, value; [data] indexes the value. *)
Definition string_field (name value : string) : ReaderField :=
  mk_field name
    [u64 (N.of_nat (String.length name)); text name; u32 8;
     u64 (N.of_nat (String.length value)); text value]
    [4] [STRING].

Definition uint32_field (name : string) (n : N) : ReaderField :=
  mk_field name
    [u64 (N.of_nat (String.length name)); text name; u32 4; u32 n]
    [3] [UINT32].

(** An array of two strings. *)
Definition string_array_field (name a b : string) : ReaderField :=
  mk_field name
    [u64 (N.of_nat (String.length name)); text name; u32 9; u32 8; u64 2;
     u64 (N.of_nat (String.length a)); text a;
     u64 (N.of_nat (String.length b)); text b]
    [6; 8] [ARRAY; STRING].

(** An array of length zero: the reader appends the element tags while it
    reads the elements, so an empty array is left with the single tag [ARRAY]. *)
Definition empty_array_field (name : string) : ReaderField :=
  mk_field name
    [u64 (N.of_nat (String.length name)); text name; u32 9; u32 8; u64 0]
    [] [ARRAY].

(** An array of arrays: three tags. *)
Definition nested_array_field (name : string) : ReaderField :=
  mk_field name
    [u64 (N.of_nat (String.length name)); text name; u32 9; u32 9; u64 1;
     u32 5; u64 1; u32 7]
    [7] [ARRAY; ARRAY; INT32].

(** A bfloat16 tensor of on-disk shape [2; 3]: the reader hands its data out
    as bytes, two per element along the last axis. *)
Definition ex_bf16 : ReaderTensor :=
  mk_tensor "w" "BF16" [2; 3]%N
    (mk_ndarray np_uint8 [3; 4] (bytes_of "abcdefghijkl")).

(** A float32 tensor of on-disk shape [4; 2], under the same name. *)
Definition ex_f32 : ReaderTensor :=
  mk_tensor "w" "F32" [4; 2]%N
    (mk_ndarray np_float32 [2; 4] (bytes_of "abcdefghijklmnopabcdefghijklmnop")).

(** A Q4_1 tensor of on-disk shape [32; 2]: two rows of one 20-byte block. *)
Definition ex_q : ReaderTensor :=
  mk_tensor "q" "Q4_1" [32; 2]%N
    (mk_ndarray np_uint8 [2; 20] (bytes_of "0123456789012345678901234567890123456789")).

(** Modelled from the spec: the [name] of the tensor classes is not under
    src/; an inference tensor has the name it was built with. *)
Definition inference_name (t : InferenceTensor) : string :=
  match t with
  | DefaultPrimitiveTensor name _ => name
  | QuantizedTensor _ name _ _ => name
  end.

(** The descriptors declared bfloat16. *)
Definition bf16_descriptors (descriptors : list ReaderTensor) : list ReaderTensor :=
  filter (fun tensor => tensor_type_name tensor = "BF16") descriptors.

(** A field with two scalar tags, which no reader layout produces. *)
Definition two_scalar_tags_field (name : string) : ReaderField :=
  mk_field name
    [u64 (N.of_nat (String.length name)); text name; u32 4; u32 7]
    [3] [UINT32; UINT32].

(** A field without tags. *)
Definition untagged_field (name : string) : ReaderField :=
  mk_field name [u64 (N.of_nat (String.length name)); text name] [] [].

(** An array of two uint32 values. *)
Definition uint32_array_field (name : string) (a b : N) : ReaderField :=
  mk_field name
    [u64 (N.of_nat (String.length name)); text name; u32 9; u32 4; u64 2;
     u32 a; u32 b]
    [5; 6] [ARRAY; UINT32].

(** The leaf stored under key [k] is sound in the store [h]: it bears the
    key as its name and holds an existing object which, unless its dtype is
    bfloat16, carries the annotation (k, empty scope). *)
Definition leaf_annotated (h : heap) (k : string) (v : InferenceTensor) : Prop :=
  inference_name v = k /\
  exists o, h !! leaf_tensor v = Some o /\
            (t_dtype o <> torch_bfloat16 ->
             _turbine_external_tensor o = Some (mk_trait k "")).

(** The mapping built so far against the store: every leaf is sound and was
    created at or after position [start], and no two keys hold one object. *)
Definition namespace_ok (start : nat) (tensors : gmap string InferenceTensor)
    (h : heap) : Prop :=
  (forall k v, tensors !! k = Some v ->
               (start <= leaf_tensor v < length h)%nat /\ leaf_annotated h k v) /\
  (forall k1 k2 v1 v2,
     tensors !! k1 = Some v1 -> tensors !! k2 = Some v2 ->
     leaf_tensor v1 = leaf_tensor v2 -> k1 = k2).

(** A string field whose value is the single byte 0xFF, which is not UTF-8. *)
Definition latin1_field (name : string) : ReaderField :=
  mk_field name
    [u64 (N.of_nat (String.length name)); text name; u32 8; u64 1;
     mk_ndarray np_uint8 [1] [xff]]
    [4] [STRING].

(** * Properties *)

(** ** The monads *)

Ltac unfold_monad :=
  unfold mbind, mret, result_bind, result_ret, Torch_bind, Torch_ret, lift, raise in *.

Lemma result_bind_ok {A B} (f : A -> result B) (m : result A) (b : B) :
  (m ≫= f) = Ok b -> exists a, m = Ok a /\ f a = Ok b.
Proof. unfold_monad. destruct m; [eauto | discriminate]. Qed.

(** ** Metadata extraction *)

Section PropertiesFacts.

Context (table : GGUFValueType -> option np_dtype).

Lemma _load_fields_app (l1 l2 : list ReaderField) (props : gmap string py_value) :
  _load_fields table (l1 ++ l2) props =
  (_load_fields table l1 props ≫= _load_fields table l2).
Proof.
  revert props. induction l1 as [|field l1 IH]; intros props; simpl; [done|].
  unfold_monad. destruct (_load_field table field props); [apply IH | done].
Qed.

(** A field with a single tag that is neither [STRING] nor a key of the table
    leaves the dictionary as it is. *)
Lemma _load_field_exotic (field : ReaderField) (t : GGUFValueType)
    (props : gmap string py_value) :
  field_types field = [t] -> t <> STRING -> table t = None ->
  _load_field table field props = Ok props.
Proof.
  intros Ht Hs Hn. unfold _load_field. rewrite Ht. simpl.
  unfold py_getitem. simpl. unfold_monad.
  rewrite bool_decide_eq_false_2 by done.
  rewrite Hn. rewrite bool_decide_eq_false_2; [done|].
  intros [? ?]; discriminate.
Qed.

End PropertiesFacts.

(** C1 (the code departs from the claim): a field whose single tag is neither a
    string nor a known numeric scalar raises nothing and contributes nothing;
    extraction goes on exactly as if the field were not in the container. *)
Theorem C1_exotic_single_tag_field_is_dropped
    (table : GGUFValueType -> option np_dtype) (field : ReaderField)
    (t : GGUFValueType) (before after : list ReaderField)
    (tensors : list ReaderTensor) :
  field_types field = [t] -> t <> STRING -> table t = None ->
  _load_properties table (mk_reader (before ++ field :: after) tensors) =
  _load_properties table (mk_reader (before ++ after) tensors).
Proof.
  intros Ht Hs Hn. unfold _load_properties. simpl.
  rewrite !_load_fields_app. unfold_monad.
  destruct (_load_fields table before _) as [props|e]; [|done].
  simpl. rewrite (_load_field_exotic table field t props Ht Hs Hn). done.
Qed.

Lemma C1_exotic_single_tag_field_is_dropped_witness :
  let dropped := empty_array_field "tokenizer.ggml.merges" in
  _load_properties gguf_py_scalar_to_np
    (mk_reader ([string_field "general.name" "llama"] ++ dropped :: []) []) =
  _load_properties gguf_py_scalar_to_np
    (mk_reader ([string_field "general.name" "llama"] ++ []) [])
  /\ _load_properties gguf_py_scalar_to_np (mk_reader [dropped] []) =
     Ok {[ "schema" := PyStr "GGUF" ]}.
Proof.
  split.
  - apply (C1_exotic_single_tag_field_is_dropped gguf_py_scalar_to_np
             (empty_array_field "tokenizer.ggml.merges") ARRAY);
      [reflexivity | discriminate | reflexivity].
  - vm_compute. reflexivity.
Defined.

Section ArrayFacts.

Context (table : GGUFValueType -> option np_dtype).

(** Where the array decoder is reached with a tag list of the wrong length, it
    rejects the field and reports the tag list. *)
Lemma _load_array_wrong_length (field : ReaderField) :
  length (field_types field) <> 2%nat ->
  _load_array table field = Raise (UnsupportedArrayType (field_types field)).
Proof.
  intros Hlen. unfold _load_array.
  destruct (Nat.eqb_spec (length (field_types field)) 2); [done | reflexivity].
Qed.

(** An array field with three tags or more is rejected with the tag list. *)
Lemma _load_field_long_array (field : ReaderField) (rest : list GGUFValueType)
    (props : gmap string py_value) :
  field_types field = ARRAY :: rest -> (2 <= length rest)%nat ->
  _load_field table field props = Raise (UnsupportedArrayType (field_types field)).
Proof.
  intros Ht Hlen. unfold _load_field.
  rewrite _load_array_wrong_length by (rewrite Ht; simpl; lia).
  rewrite Ht. destruct rest as [|t1 [|t2 rest]]; simpl in Hlen; try lia.
  reflexivity.
Qed.

(** The one place that raises "Invalid field type.": two tags or more, the
    first of which is not [ARRAY]. *)
Lemma _load_field_invalid_type (field : ReaderField) (t : GGUFValueType)
    (rest : list GGUFValueType) (props : gmap string py_value) :
  field_types field = t :: rest -> rest <> [] -> t <> ARRAY ->
  _load_field table field props = Raise InvalidFieldType.
Proof.
  intros Ht Hrest Harray. unfold _load_field. rewrite Ht.
  destruct rest as [|t1 rest]; [done|].
  replace (py_getitem (t :: t1 :: rest) 0) with (Ok t) by reflexivity.
  simpl. unfold_monad. by rewrite bool_decide_eq_false_2.
Qed.

End ArrayFacts.

(** C2 (the code departs from the claim): an array field with the single tag
    [ARRAY] is not rejected.  The array decoder would raise "unsupported array
    type" on it, but the field never reaches the decoder: it takes the
    one-tag branch and leaves the dictionary as it is. *)
Theorem C2_one_tag_array_field_is_not_rejected
    (table : GGUFValueType -> option np_dtype) (field : ReaderField)
    (props : gmap string py_value) :
  field_types field = [ARRAY] -> table ARRAY = None ->
  _load_array table field = Raise (UnsupportedArrayType [ARRAY]) /\
  _load_field table field props = Ok props.
Proof.
  intros Ht Hn. split.
  - rewrite _load_array_wrong_length by (rewrite Ht; simpl; lia).
    by rewrite Ht.
  - by apply (_load_field_exotic table field ARRAY).
Qed.

Lemma C2_one_tag_array_field_is_not_rejected_witness :
  let field := empty_array_field "tokenizer.ggml.merges" in
  (_load_array gguf_py_scalar_to_np field = Raise (UnsupportedArrayType [ARRAY]) /\
   _load_field gguf_py_scalar_to_np field {[ "schema" := PyStr "GGUF" ]} =
   Ok {[ "schema" := PyStr "GGUF" ]}) /\
  load_properties gguf_py_scalar_to_np (mk_reader [field] []) =
  Ok {[ "schema" := PyStr "GGUF" ]}.
Proof.
  split.
  - apply (C2_one_tag_array_field_is_not_rejected gguf_py_scalar_to_np
             (empty_array_field "tokenizer.ggml.merges")); reflexivity.
  - vm_compute. reflexivity.
Defined.

Section WellFormedFields.

Context (table : GGUFValueType -> option np_dtype).

Lemma comprehension_ok {A B} (f : A -> result B) (l : list A) :
  Forall (fun x => exists y, f x = Ok y) l ->
  exists ys, comprehension f l = Ok ys /\ length ys = length l.
Proof.
  induction 1 as [|x l [y Hy] _ [ys [Hys Hlen]]]; simpl.
  - by exists [].
  - exists (y :: ys). rewrite Hy, Hys. simpl. by rewrite Hlen.
Qed.

Lemma part_at_text (parts : list ndarray) (i : Z) :
  part_at parts text_part i = true ->
  exists s, (part ← py_getitem parts i; s ← str_utf8 (nd_bytes part); Ok (PyStr s))
            = Ok (PyStr s).
Proof.
  unfold part_at, text_part, str_utf8. intros H.
  destruct (py_getitem parts i) as [part|]; [|done].
  unfold_monad. rewrite H. eauto.
Qed.

Lemma part_at_scalar (parts : list ndarray) (i : Z) :
  part_at parts scalar_part i = true ->
  exists v, (part ← py_getitem parts i; item ← nd_getitem0 part;
             Ok (_sanitize_scalar item)) = Ok v.
Proof.
  unfold part_at, scalar_part, nd_getitem0. intros H.
  destruct (py_getitem parts i) as [part|]; [|done].
  unfold_monad. destruct (nd_shape part) as [|n rest]; [done|].
  destruct (Z.leb_spec n 0); [apply Z.ltb_lt in H; lia|].
  destruct rest; eauto.
Qed.

(** A well-formed field contributes exactly one entry, under its name. *)
Lemma _load_field_well_formed (field : ReaderField) (props : gmap string py_value) :
  field_well_formed table field = true ->
  exists v, _load_field table field props = Ok (<[field_name field := v]> props).
Proof.
  unfold field_well_formed, _load_field, _load_array.
  destruct (field_types field) as [|t0 [|t1 [|t2 ts]]]; try done.
  - (* one tag *)
    replace (py_getitem [t0] 0) with (Ok t0) by reflexivity.
    simpl. unfold_monad.
    destruct (bool_decide (t0 = STRING)).
    + intros H. apply part_at_text in H as [s Hs]. unfold_monad.
      destruct (py_getitem (field_parts field) (-1)) as [part|]; [|done].
      destruct (str_utf8 (nd_bytes part)) as [s'|]; [|done]. eauto.
    + destruct (bool_decide (is_Some (table t0))); [|done].
      intros H. apply part_at_scalar in H as [v Hv]. unfold_monad.
      destruct (py_getitem (field_parts field) (-1)) as [part|]; [|done].
      destruct (nd_getitem0 part) as [item|]; [|done]. eauto.
  - (* two tags *)
    replace (py_getitem [t0; t1] 0) with (Ok t0) by reflexivity.
    replace (py_getitem [t0; t1] 1) with (Ok t1) by reflexivity.
    simpl. unfold_monad.
    destruct (bool_decide (t0 = ARRAY)); [simpl | done].
    destruct (bool_decide (t1 = STRING)).
    + intros H. apply Is_true_true, forallb_True in H.
      edestruct (comprehension_ok
        (fun parts_index =>
           part ← py_getitem (field_parts field) parts_index;
           s ← str_utf8 (nd_bytes part); Ok (PyStr s)) (field_data field))
        as [ys [Hys _]].
      { eapply Forall_impl; [apply H|]. intros i Hi.
        apply Is_true_true, part_at_text in Hi as [s Hs]. eauto. }
      unfold_monad. rewrite Hys. eauto.
    + destruct (bool_decide (is_Some (table t1))); [|done].
      intros H. apply Is_true_true, forallb_True in H.
      edestruct (comprehension_ok
        (fun parts_index =>
           part ← py_getitem (field_parts field) parts_index;
           item ← nd_getitem0 part; Ok (_sanitize_scalar item)) (field_data field))
        as [ys [Hys _]].
      { eapply Forall_impl; [apply H|]. intros i Hi.
        apply Is_true_true, part_at_scalar in Hi as [v Hv]. eauto. }
      unfold_monad. rewrite Hys. eauto.
Qed.

(** Over well-formed fields extraction succeeds; the keys it adds are the
    field names, and no other entry changes. *)
Lemma _load_fields_well_formed (fields : list ReaderField)
    (props : gmap string py_value) :
  Forall (fun field => field_well_formed table field = true) fields ->
  exists props',
    _load_fields table fields props = Ok props' /\
    dom props' = dom props ∪ list_to_set (field_name <$> fields) /\
    forall k, k ∉ field_name <$> fields -> props' !! k = props !! k.
Proof.
  intros Hwf. revert props.
  induction Hwf as [|field fields Hfield _ IH]; intros props; simpl.
  - exists props. split; [done|]. split; [set_solver | done].
  - destruct (_load_field_well_formed field props Hfield) as [v Hv].
    rewrite Hv. unfold_monad.
    destruct (IH (<[field_name field := v]> props)) as (props' & Hok & Hdom & Hother).
    exists props'. split; [done|]. split.
    + rewrite Hdom, dom_insert_L. set_solver.
    + intros k Hk. rewrite Hother by set_solver.
      apply lookup_insert_ne. set_solver.
Qed.

End WellFormedFields.

(** C9 (as amended): for every container whose fields are all well-formed and
    none of which is named "schema", the properties-only load returns a mapping
    in which "schema" is "GGUF" and whose keys are "schema" and the field names
    and nothing else; the result is the same whatever the tensor descriptors
    are, so no tensor data is read and no tensor is built. *)
Theorem C9_properties_only_load
    (table : GGUFValueType -> option np_dtype) (reader : GGUFReader) :
  Forall (fun field => field_well_formed table field = true) (reader_fields reader) ->
  "schema" ∉ field_name <$> reader_fields reader ->
  exists props,
    load_properties table reader = Ok props /\
    props !! "schema" = Some (PyStr "GGUF") /\
    dom props = {[ "schema" ]} ∪ list_to_set (field_name <$> reader_fields reader) /\
    forall tensors,
      load_properties table (mk_reader (reader_fields reader) tensors) = Ok props.
Proof.
  intros Hwf Hschema. unfold load_properties, _load_properties.
  destruct (_load_fields_well_formed table (reader_fields reader)
              {[ "schema" := PyStr "GGUF" ]} Hwf) as (props & Hok & Hdom & Hother).
  exists props. split; [done|]. split; [|split].
  - rewrite Hother by done. apply lookup_singleton_eq.
  - by rewrite Hdom, dom_singleton_L.
  - intros tensors. simpl. done.
Qed.

Lemma C9_properties_only_load_witness :
  let reader :=
    mk_reader [string_field "general.name" "llama";
               uint32_field "llama.block_count" 32;
               string_array_field "tokenizer.ggml.tokens" "<s>" "</s>"]
              [ex_f32; ex_q] in
  exists props,
    load_properties gguf_py_scalar_to_np reader = Ok props /\
    props !! "schema" = Some (PyStr "GGUF") /\
    dom props = {[ "schema" ]} ∪ list_to_set (field_name <$> reader_fields reader) /\
    forall tensors,
      load_properties gguf_py_scalar_to_np (mk_reader (reader_fields reader) tensors)
      = Ok props.
Proof.
  intros reader.
  apply (C9_properties_only_load gguf_py_scalar_to_np reader).
  - repeat constructor.
  - compute_done.
Defined.

(** C9, as stated, fails: a metadata field may itself be named "schema", and
    its value then replaces the marker; and a container with a field that
    extraction rejects gets no mapping at all. *)
Lemma C9_counterexample :
  load_properties gguf_py_scalar_to_np
    (mk_reader [string_field "schema" "custom"] [ex_f32]) =
  Ok {[ "schema" := PyStr "custom" ]}
  /\ load_properties gguf_py_scalar_to_np
       (mk_reader [nested_array_field "rope.sections"] [ex_f32]) =
     Raise (UnsupportedArrayType [ARRAY; ARRAY; INT32]).
Proof. split; vm_compute; reflexivity. Qed.

(** ** Tensor materialization *)

Lemma alter_snoc {A} (f : A -> A) (l : list A) (x : A) :
  alter f (length l) (l ++ [x]) = l ++ [f x].
Proof.
  replace (length l) with (length l + 0)%nat by lia.
  by rewrite alter_app_r.
Qed.

Lemma _externalize_tensor_flat (name : string) (data : ndarray) (h : heap) :
  _externalize_tensor name data None h = Ok (length h, h ++ [externalized name data]).
Proof.
  unfold _externalize_tensor, torch_as_tensor, ExternalTensorTrait_set.
  unfold_monad. by rewrite alter_snoc.
Qed.

Lemma _externalize_tensor_shaped (name : string) (data : ndarray)
    (logical_shape : list Z) (h : heap) :
  _externalize_tensor name data (Some logical_shape) h =
  match np_reshape data logical_shape with
  | Ok reshaped => Ok (length h, h ++ [externalized name reshaped])
  | Raise e => Raise e
  end.
Proof.
  unfold _externalize_tensor, torch_as_tensor, ExternalTensorTrait_set.
  unfold_monad. destruct (np_reshape data logical_shape); [|done].
  by rewrite alter_snoc.
Qed.

(** A reshape to a shape without negative entries gives exactly that shape,
    over the same bytes and element type. *)
Lemma np_reshape_nonneg (a reshaped : ndarray) (newshape : list Z) :
  Forall (fun d => 0 <= d) newshape ->
  np_reshape a newshape = Ok reshaped ->
  reshaped = mk_ndarray (nd_dtype a) newshape (nd_buffer a).
Proof.
  intros Hpos. unfold np_reshape.
  destruct (negb _); [done|].
  replace (filter (fun d => d < 0) newshape) with (@nil Z).
  - simpl. destruct (_ =? _); [|done]. by intros [= <-].
  - symmetry. induction Hpos as [|d l Hd _ IH]; [done|].
    rewrite filter_cons_False by lia. done.
Qed.

Lemma np_reshape_keeps (a reshaped : ndarray) (newshape : list Z) :
  np_reshape a newshape = Ok reshaped ->
  nd_dtype reshaped = nd_dtype a /\ nd_buffer reshaped = nd_buffer a.
Proof.
  unfold np_reshape. destruct (negb _); [done|].
  destruct (length _) as [|[|n]]; [| |done].
  - destruct (_ =? _); [|done]. by intros [= <-].
  - destruct (_ || _); [done|]. by intros [= <-].
Qed.

Lemma np_view_keeps (a viewed : ndarray) (dtype : np_dtype) :
  np_view a dtype = Ok viewed ->
  nd_dtype viewed = dtype /\ nd_buffer viewed = nd_buffer a.
Proof.
  unfold np_view. destruct (view_shape _ _ _); [|done]. by intros [= <-].
Qed.

(** ** Tensor dispatch, branch by branch *)

Lemma _wrap_tensor_float (name : string) (logical_shape : list Z)
    (type_name : string) (data : ndarray) (h : heap) :
  type_name ∈ ["F16"; "F32"; "F64"] ->
  _wrap_tensor name logical_shape type_name data h =
  match np_reshape data (reverse logical_shape) with
  | Ok reshaped =>
    Ok (DefaultPrimitiveTensor name (length h), h ++ [externalized name reshaped])
  | Raise e => Raise e
  end.
Proof.
  intros Hin. unfold _wrap_tensor.
  rewrite bool_decide_eq_true_2 by done.
  unfold_monad. rewrite _externalize_tensor_shaped.
  by destruct (np_reshape _ _).
Qed.

Lemma _wrap_tensor_bf16 (name : string) (logical_shape : list Z)
    (data : ndarray) (h : heap) :
  _wrap_tensor name logical_shape "BF16" data h =
  if bool_decide (nd_dtype data = np_uint8) then
    match np_view data np_int16 with
    | Ok as_int16 =>
      match np_reshape as_int16 (reverse logical_shape) with
      | Ok reshaped =>
        Ok (DefaultPrimitiveTensor name (S (length h)),
            h ++ [externalized name reshaped;
                  mk_Tensor torch_bfloat16 (nd_shape reshaped) (nd_buffer reshaped) None])
      | Raise e => Raise e
      end
    | Raise e => Raise e
    end
  else Raise AssertionError.
Proof.
  unfold _wrap_tensor.
  rewrite bool_decide_eq_false_2 by (set_unfold; naive_solver).
  rewrite bool_decide_eq_true_2 by done.
  destruct (bool_decide (nd_dtype data = np_uint8)); simpl; [|done].
  unfold_monad.
  destruct (np_view data np_int16) as [as_int16|] eqn:Hv; [|done].
  rewrite _externalize_tensor_shaped.
  destruct (np_reshape as_int16 (reverse logical_shape)) as [reshaped|] eqn:Hr; [|done].
  destruct (np_reshape_keeps _ _ _ Hr) as [Hd _].
  destruct (np_view_keeps _ _ _ Hv) as [Hd' _].
  unfold Tensor_view.
  rewrite lookup_app_r, Nat.sub_diag by lia. simpl.
  unfold view_shape. rewrite Hd, Hd'. simpl.
  rewrite length_app. simpl. rewrite Nat.add_1_r.
  by rewrite <- app_assoc.
Qed.

Lemma _wrap_tensor_quantized (name : string) (logical_shape : list Z)
    (type_name : string) (data : ndarray) (h : heap) (layout : layout_class) :
  _quantized_types type_name = Some layout ->
  _wrap_tensor name logical_shape type_name data h =
  Ok (QuantizedTensor layout name (length h) (reverse logical_shape),
      h ++ [externalized name data]).
Proof.
  intros Hq. unfold _wrap_tensor.
  assert (Hcases : type_name ∈ ["Q4_1"; "Q4_K"; "Q5_K"; "Q6_K"; "Q8_0"]).
  { unfold _quantized_types in Hq.
    repeat (case_bool_decide; [subst; set_solver|]). done. }
  rewrite bool_decide_eq_false_2.
  2:{ intros Hf. set_unfold. naive_solver. }
  rewrite bool_decide_eq_false_2.
  2:{ intros ->. set_unfold. naive_solver. }
  rewrite Hq. unfold_monad. by rewrite _externalize_tensor_flat.
Qed.

Lemma _wrap_tensor_unsupported (name : string) (logical_shape : list Z)
    (type_name : string) (data : ndarray) (h : heap) :
  type_name ∉ ["F16"; "F32"; "F64"; "BF16"] ->
  _quantized_types type_name = None ->
  _wrap_tensor name logical_shape type_name data h =
  Raise (UnsupportedGgufTensorType type_name).
Proof.
  intros Hdirect Hq. unfold _wrap_tensor.
  rewrite bool_decide_eq_false_2 by set_solver.
  rewrite bool_decide_eq_false_2 by set_solver.
  by rewrite Hq.
Qed.

Lemma declared_shape_nonneg (shape : list N) :
  Forall (fun d => 0 <= d) (reverse (map Z.of_N shape)).
Proof.
  apply Forall_reverse. induction shape as [|d shape IH]; simpl; [done|].
  constructor; [lia | done].
Qed.

(** Outside the bfloat16 branch the annotated object is the one the leaf
    holds. *)
Lemma _wrap_tensor_annotates_leaf (name : string) (logical_shape : list Z)
    (type_name : string) (data : ndarray) (h h' : heap) (v : InferenceTensor) :
  type_name <> "BF16" ->
  _wrap_tensor name logical_shape type_name data h = Ok (v, h') ->
  exists leaf, h' !! leaf_tensor v = Some leaf /\
               _turbine_external_tensor leaf = Some (mk_trait name "").
Proof.
  intros Hbf.
  destruct (decide (type_name ∈ ["F16"; "F32"; "F64"])) as [Hf|Hf].
  - rewrite _wrap_tensor_float by done.
    destruct (np_reshape _ _) as [reshaped|]; [|done].
    intros [= <- <-]. exists (externalized name reshaped). simpl.
    by rewrite list_lookup_middle.
  - destruct (_quantized_types type_name) as [layout|] eqn:Hq.
    + rewrite (_wrap_tensor_quantized _ _ _ _ _ layout) by done.
      intros [= <- <-]. exists (externalized name data). simpl.
      by rewrite list_lookup_middle.
    + rewrite _wrap_tensor_unsupported; [done | set_solver | done].
Qed.

(** C3 (the code departs from the claim): for a bfloat16 tensor the leaf holds
    the object returned by the final dtype view, which carries no annotation;
    the annotation sits on the int16 tensor the view was taken from, a
    different object that the namespace does not hold. *)
Theorem C3_bf16_leaf_is_not_the_annotated_object
    (name : string) (logical_shape : list Z) (data : ndarray) (h h' : heap)
    (v : InferenceTensor) :
  _wrap_tensor name logical_shape "BF16" data h = Ok (v, h') ->
  (exists leaf, h' !! leaf_tensor v = Some leaf /\
                _turbine_external_tensor leaf = None) /\
  (exists annotated, h' !! length h = Some annotated /\
                     _turbine_external_tensor annotated = Some (mk_trait name "") /\
                     length h <> leaf_tensor v).
Proof.
  rewrite _wrap_tensor_bf16.
  destruct (bool_decide _); [|done].
  destruct (np_view _ _) as [as_int16|]; [|done].
  destruct (np_reshape _ _) as [reshaped|]; [|done].
  intros [= <- <-]. simpl. split.
  - exists (mk_Tensor torch_bfloat16 (nd_shape reshaped) (nd_buffer reshaped) None).
    split; [|reflexivity].
    rewrite (lookup_app_r h) by lia.
    replace (S (length h) - length h)%nat with 1%nat by lia. reflexivity.
  - exists (externalized name reshaped). split; [|split; [done | lia]].
    by rewrite (list_lookup_middle h _ _ (length h)).
Qed.

Lemma C3_bf16_leaf_is_not_the_annotated_object_witness :
  (exists leaf, [externalized "w" (mk_ndarray np_int16 [3; 2] (bytes_of "abcdefghijkl"));
                 mk_Tensor torch_bfloat16 [3; 2] (bytes_of "abcdefghijkl") None]
                !! leaf_tensor (DefaultPrimitiveTensor "w" 1) = Some leaf /\
                _turbine_external_tensor leaf = None) /\
  (exists annotated,
      [externalized "w" (mk_ndarray np_int16 [3; 2] (bytes_of "abcdefghijkl"));
       mk_Tensor torch_bfloat16 [3; 2] (bytes_of "abcdefghijkl") None]
      !! length (@nil Tensor) = Some annotated /\
      _turbine_external_tensor annotated = Some (mk_trait "w" "") /\
      length (@nil Tensor) <> leaf_tensor (DefaultPrimitiveTensor "w" 1)).
Proof.
  apply (C3_bf16_leaf_is_not_the_annotated_object "w" [2; 3]
           (tensor_data ex_bf16) []).
  vm_compute. reflexivity.
Defined.

(** The same at the level of a full load: in the namespace "w" is the leaf
    over object 1, which carries no annotation; object 0 carries it. *)
Example load_file_bf16_leaf_unannotated :
  exists ds h',
    load_file gguf_py_scalar_to_np (mk_reader [] [ex_bf16]) [] = Ok (ds, h') /\
    theta_tensors (root_theta ds) !! "w" = Some (DefaultPrimitiveTensor "w" 1) /\
    _turbine_external_tensor <$> h' !! 1%nat = Some None /\
    _turbine_external_tensor <$> h' !! 0%nat = Some (Some (mk_trait "w" "")).
Proof. eexists _, _. split; [vm_compute; reflexivity|]. by vm_compute. Qed.

(** C4: whatever the declared encoding and rank, the tensor produced for a
    descriptor reports the declared on-disk shape reversed ([a;b;c] gives
    [c;b;a], and [n] gives [n]). *)
Theorem C4_logical_shape_is_reversed_declared_shape
    (tensor : ReaderTensor) (h h' : heap) (v : InferenceTensor) :
  _load_tensor tensor h = Ok (v, h') ->
  inference_shape h' v = Some (reverse (map Z.of_N (tensor_shape tensor))).
Proof.
  unfold _load_tensor.
  pose proof (declared_shape_nonneg (tensor_shape tensor)) as Hpos.
  destruct (decide (tensor_type_name tensor ∈ ["F16"; "F32"; "F64"])) as [Hf|Hf].
  - rewrite _wrap_tensor_float by done.
    destruct (np_reshape _ _) as [reshaped|] eqn:Hr; [|done].
    intros [= <- <-]. simpl. rewrite list_lookup_middle by done. simpl.
    by rewrite (np_reshape_nonneg _ _ _ Hpos Hr).
  - destruct (decide (tensor_type_name tensor = "BF16")) as [Hb|Hb].
    + rewrite Hb, _wrap_tensor_bf16.
      destruct (bool_decide _); [|done].
      destruct (np_view _ _) as [as_int16|]; [|done].
      destruct (np_reshape _ _) as [reshaped|] eqn:Hr; [|done].
      intros [= <- <-]. simpl.
      rewrite (lookup_app_r h) by lia.
      replace (S (length h) - length h)%nat with 1%nat by lia. simpl.
      by rewrite (np_reshape_nonneg _ _ _ Hpos Hr).
    + destruct (_quantized_types (tensor_type_name tensor)) as [layout|] eqn:Hq.
      * rewrite (_wrap_tensor_quantized _ _ _ _ _ layout) by done.
        by intros [= <- <-].
      * rewrite _wrap_tensor_unsupported; [done | set_solver | done].
Qed.

Lemma C4_logical_shape_is_reversed_declared_shape_witness :
  inference_shape
    [externalized "blk.0.attn_q.weight"
       (mk_ndarray np_float16 [4; 3; 2] (bytes_of "000000000000000000000000000000000000000000000000"))]
    (DefaultPrimitiveTensor "blk.0.attn_q.weight" 0) = Some [4; 3; 2]
  /\ inference_shape
       [externalized "output_norm.weight" (mk_ndarray np_float32 [2] (bytes_of "00000000"))]
       (DefaultPrimitiveTensor "output_norm.weight" 0) = Some [2].
Proof.
  split.
  - apply (C4_logical_shape_is_reversed_declared_shape
             (mk_tensor "blk.0.attn_q.weight" "F16" [2; 3; 4]%N
                (mk_ndarray np_float16 [4; 3; 2]
                   (bytes_of "000000000000000000000000000000000000000000000000"))) []).
    vm_compute. reflexivity.
  - apply (C4_logical_shape_is_reversed_declared_shape
             (mk_tensor "output_norm.weight" "F32" [2]%N
                (mk_ndarray np_float32 [2] (bytes_of "00000000"))) []).
    vm_compute. reflexivity.
Defined.



(** C6: a bfloat16 tensor is materialized only from unsigned 8-bit storage,
    anything else is an assertion failure.  When it is materialized, the raw
    bytes are viewed as int16, reshaped to the reversed shape and annotated,
    and the leaf is a further object of dtype bfloat16 over the same bytes and
    shape; from uint8 storage that views as int16 and fits the shape it is
    materialized. *)
Theorem C6_bf16_materialization
    (name : string) (logical_shape : list Z) (data : ndarray) (h : heap) :
  (nd_dtype data <> np_uint8 ->
   _wrap_tensor name logical_shape "BF16" data h = Raise AssertionError) /\
  (forall v h',
     _wrap_tensor name logical_shape "BF16" data h = Ok (v, h') ->
     nd_dtype data = np_uint8 /\
     exists as_int16 reshaped,
       np_view data np_int16 = Ok as_int16 /\
       np_reshape as_int16 (reverse logical_shape) = Ok reshaped /\
       (Forall (fun d => 0 <= d) logical_shape ->
        nd_shape reshaped = reverse logical_shape) /\
       v = DefaultPrimitiveTensor name (S (length h)) /\
       h' = h ++ [mk_Tensor (torch_of_numpy np_int16) (nd_shape reshaped)
                            (nd_buffer data) (Some (mk_trait name ""));
                  mk_Tensor torch_bfloat16 (nd_shape reshaped)
                            (nd_buffer data) None]) /\
  (forall as_int16 reshaped,
     nd_dtype data = np_uint8 ->
     np_view data np_int16 = Ok as_int16 ->
     np_reshape as_int16 (reverse logical_shape) = Ok reshaped ->
     exists h', _wrap_tensor name logical_shape "BF16" data h =
                Ok (DefaultPrimitiveTensor name (S (length h)), h')).
Proof.
  rewrite _wrap_tensor_bf16. split; [|split].
  - intros Hd. by rewrite bool_decide_eq_false_2.
  - intros v h'. case_bool_decide as Hd; [|done].
    destruct (np_view data np_int16) as [as_int16|] eqn:Hv; [|done].
    destruct (np_reshape as_int16 (reverse logical_shape)) as [reshaped|] eqn:Hr;
      [|done].
    intros [= <- <-]. split; [done|].
    exists as_int16, reshaped.
    destruct (np_reshape_keeps _ _ _ Hr) as [Hrd Hrb].
    destruct (np_view_keeps _ _ _ Hv) as [Hvd Hvb].
    split; [done|]. split; [done|]. split.
    + intros Hpos. apply Forall_reverse in Hpos.
      by rewrite (np_reshape_nonneg _ _ _ Hpos Hr).
    + split; [done|]. unfold externalized. by rewrite Hrd, Hvd, Hrb, Hvb.
  - intros as_int16 reshaped Hd Hv Hr.
    rewrite bool_decide_eq_true_2, Hv, Hr by done. eauto.
Qed.

Lemma C6_bf16_materialization_witness :
  _wrap_tensor "w" [2; 3] "BF16"
    (mk_ndarray np_int16 [3; 2] (bytes_of "abcdefghijkl")) [] = Raise AssertionError
  /\ (nd_dtype (tensor_data ex_bf16) = np_uint8 /\
      exists as_int16 reshaped,
        np_view (tensor_data ex_bf16) np_int16 = Ok as_int16 /\
        np_reshape as_int16 (reverse [2; 3]) = Ok reshaped /\
        (Forall (fun d => 0 <= d) [2; 3] -> nd_shape reshaped = reverse [2; 3]) /\
        DefaultPrimitiveTensor "w" 1 = DefaultPrimitiveTensor "w" (S (length (@nil Tensor))) /\
        [mk_Tensor (torch_of_numpy np_int16) [3; 2] (bytes_of "abcdefghijkl")
                   (Some (mk_trait "w" ""));
         mk_Tensor torch_bfloat16 [3; 2] (bytes_of "abcdefghijkl") None] =
        [] ++ [mk_Tensor (torch_of_numpy np_int16) (nd_shape reshaped)
                         (nd_buffer (tensor_data ex_bf16)) (Some (mk_trait "w" ""));
               mk_Tensor torch_bfloat16 (nd_shape reshaped)
                         (nd_buffer (tensor_data ex_bf16)) None])
  /\ exists h', _wrap_tensor "w" [2; 3] "BF16" (tensor_data ex_bf16) [] =
                Ok (DefaultPrimitiveTensor "w" (S (length (@nil Tensor))), h').
Proof.
  split; [|split].
  - apply (C6_bf16_materialization "w" [2; 3]
             (mk_ndarray np_int16 [3; 2] (bytes_of "abcdefghijkl")) []).
    discriminate.
  - apply (C6_bf16_materialization "w" [2; 3] (tensor_data ex_bf16) []).
    vm_compute. reflexivity.
  - apply (proj2 (proj2 (C6_bf16_materialization "w" [2; 3] (tensor_data ex_bf16) []))
             (mk_ndarray np_int16 [3; 2] (bytes_of "abcdefghijkl"))
             (mk_ndarray np_int16 [3; 2] (bytes_of "abcdefghijkl")));
      vm_compute; reflexivity.
Defined.

(** C7: a declared type name that is neither one of F16, F32, F64, BF16 nor a
    key of the quantized-type table makes dispatch fail with "unsupported gguf
    tensor type", and the error carries that name. *)
Theorem C7_unknown_encoding_is_rejected
    (name : string) (logical_shape : list Z) (type_name : string)
    (data : ndarray) (h : heap) :
  type_name ∉ ["F16"; "F32"; "F64"; "BF16"] ->
  _quantized_types type_name = None ->
  _wrap_tensor name logical_shape type_name data h =
  Raise (UnsupportedGgufTensorType type_name).
Proof. apply _wrap_tensor_unsupported. Qed.

Lemma C7_unknown_encoding_is_rejected_witness :
  _wrap_tensor "w" [4; 2] "UNKNOWN_X" (tensor_data ex_f32) [] =
  Raise (UnsupportedGgufTensorType "UNKNOWN_X").
Proof.
  apply (C7_unknown_encoding_is_rejected "w" [4; 2] "UNKNOWN_X" (tensor_data ex_f32) []).
  - set_unfold. intros H. naive_solver.
  - reflexivity.
Defined.

(** ** Dataset assembly *)

(** Whether a descriptor's tensor is reconstructed does not depend on the
    object store it is built in. *)
Lemma _load_tensor_reconstructs (tensor : ReaderTensor) (h : heap) :
  tensor_reconstructs tensor = true ->
  exists v h', _load_tensor tensor h = Ok (v, h').
Proof.
  unfold tensor_reconstructs, _load_tensor.
  case_bool_decide as Hf.
  - rewrite _wrap_tensor_float by done.
    destruct (np_reshape _ _); [eauto | done].
  - case_bool_decide as Hb.
    + rewrite Hb, _wrap_tensor_bf16.
      destruct (bool_decide _); [simpl | done].
      destruct (np_view _ _); [|done].
      destruct (np_reshape _ _); [eauto | done].
    + intros Hq. apply bool_decide_eq_true in Hq as [layout Hq].
      rewrite (_wrap_tensor_quantized _ _ _ _ _ layout) by done. eauto.
Qed.

Lemma _load_tensor_fails (tensor : ReaderTensor) (h : heap) :
  tensor_reconstructs tensor = false ->
  exists e, _load_tensor tensor h = Raise e.
Proof.
  unfold tensor_reconstructs, _load_tensor.
  case_bool_decide as Hf.
  - rewrite _wrap_tensor_float by done.
    destruct (np_reshape _ _); [done | eauto].
  - case_bool_decide as Hb.
    + rewrite Hb, _wrap_tensor_bf16.
      destruct (bool_decide _); [simpl | eauto].
      destruct (np_view _ _); [|eauto].
      destruct (np_reshape _ _); [done | eauto].
    + intros Hq. apply bool_decide_eq_false in Hq.
      destruct (_quantized_types (tensor_type_name tensor)) eqn:Hn.
      * destruct Hq. eauto.
      * rewrite _wrap_tensor_unsupported; [eauto | set_solver | done].
Qed.

Lemma _load_tensors_app (l1 l2 : list ReaderTensor)
    (acc : gmap string InferenceTensor) (h : heap) :
  _load_tensors (l1 ++ l2) acc h =
  match _load_tensors l1 acc h with
  | Ok (acc1, h1) => _load_tensors l2 acc1 h1
  | Raise e => Raise e
  end.
Proof.
  revert acc h. induction l1 as [|tensor l1 IH]; intros acc h; simpl; [done|].
  unfold_monad. destruct (_load_tensor tensor h) as [[v h1]|]; [apply IH | done].
Qed.

(** Over descriptors that can all be reconstructed the loop completes; the keys
    it adds are the descriptor names, and no other entry changes. *)
Lemma _load_tensors_reconstructs (descriptors : list ReaderTensor)
    (acc : gmap string InferenceTensor) (h : heap) :
  Forall (fun tensor => tensor_reconstructs tensor = true) descriptors ->
  exists acc' h',
    _load_tensors descriptors acc h = Ok (acc', h') /\
    dom acc' = dom acc ∪ list_to_set (tensor_name <$> descriptors) /\
    forall k, k ∉ tensor_name <$> descriptors -> acc' !! k = acc !! k.
Proof.
  intros Hall. revert acc h.
  induction Hall as [|tensor rest Ht _ IH]; intros acc h; simpl.
  - exists acc, h. split; [done|]. split; [set_solver | done].
  - destruct (_load_tensor_reconstructs tensor h Ht) as (v & h1 & Hv).
    unfold_monad. rewrite Hv.
    destruct (IH (<[tensor_name tensor := v]> acc) h1) as (acc' & h' & Hok & Hdom & Hother).
    exists acc', h'. split; [done|]. split.
    + rewrite Hdom, dom_insert_L. set_solver.
    + intros k Hk. rewrite Hother by set_solver.
      apply lookup_insert_ne. set_solver.
Qed.

(** One descriptor that cannot be reconstructed makes the whole loop raise. *)
Lemma _load_tensors_fails (descriptors : list ReaderTensor)
    (acc : gmap string InferenceTensor) (h : heap) :
  Exists (fun tensor => tensor_reconstructs tensor = false) descriptors ->
  exists e, _load_tensors descriptors acc h = Raise e.
Proof.
  intros Hex. revert acc h.
  induction descriptors as [|tensor rest IH]; intros acc h; [by inversion Hex|].
  simpl. unfold_monad.
  destruct (_load_tensor tensor h) as [[v h1]|e] eqn:Hv; [|eauto].
  apply Exists_cons in Hex as [Hbad|Hrest]; [|by apply IH].
  destruct (_load_tensor_fails tensor h Hbad) as [e He]. congruence.
Qed.

Lemma size_list_to_set_le (l : list string) :
  (size (list_to_set l : gset string) <= length l)%nat.
Proof.
  induction l as [|x l IH].
  - rewrite list_to_set_nil, size_empty. simpl. lia.
  - rewrite list_to_set_cons, size_union_alt, size_singleton. simpl.
    assert (Hsub : list_to_set l ∖ {[x]} ⊆ (list_to_set l : gset string))
      by set_solver.
    apply subseteq_size in Hsub. lia.
Qed.

Lemma size_keys_distinct {V} (m : gmap string V) (keys : list string) :
  dom m = list_to_set keys -> NoDup keys -> size m = length keys.
Proof.
  intros Hdom Hnd. rewrite <- (size_dom (D:=gset string)), Hdom.
  by apply size_list_to_set.
Qed.

(** C8 (as amended): for every container whose N tensor descriptors have
    pairwise distinct names and can each be reconstructed, and whose M
    metadata fields are well-formed, have pairwise distinct names and are not
    named "schema", a full load returns a dataset whose tensor namespace has
    exactly N keys, the descriptor names, and whose property mapping has
    exactly M+1 keys, the field names and "schema".  If any descriptor cannot be
    reconstructed the load raises, whatever the fields are: no dataset is
    returned. *)
Theorem C8_full_load
    (table : GGUFValueType -> option np_dtype) (reader : GGUFReader) (h : heap) :
  (Forall (fun field => field_well_formed table field = true) (reader_fields reader) ->
   NoDup (field_name <$> reader_fields reader) ->
   "schema" ∉ field_name <$> reader_fields reader ->
   NoDup (tensor_name <$> reader_tensors reader) ->
   Forall (fun tensor => tensor_reconstructs tensor = true) (reader_tensors reader) ->
   exists ds h',
     load_file table reader h = Ok (ds, h') /\
     size (theta_tensors (root_theta ds)) = length (reader_tensors reader) /\
     dom (theta_tensors (root_theta ds)) =
       list_to_set (tensor_name <$> reader_tensors reader) /\
     size (properties ds) = S (length (reader_fields reader)) /\
     dom (properties ds) =
       {[ "schema" ]} ∪ list_to_set (field_name <$> reader_fields reader)) /\
  (Exists (fun tensor => tensor_reconstructs tensor = false) (reader_tensors reader) ->
   exists e, load_file table reader h = Raise e).
Proof.
  split.
  - intros Hwf Hfnd Hschema Htnd Hrec. unfold load_file, _load_properties.
    destruct (_load_fields_well_formed table (reader_fields reader)
                {[ "schema" := PyStr "GGUF" ]} Hwf) as (props & Hp & Hpdom & _).
    destruct (_load_tensors_reconstructs (reader_tensors reader) ∅ h Hrec)
      as (tensors & h' & Ht & Htdom & _).
    unfold_monad. rewrite Hp, Ht.
    exists (mk_Dataset props (mk_Theta tensors)), h'. simpl.
    rewrite dom_empty_L, (left_id_L ∅ (∪)) in Htdom.
    rewrite dom_singleton_L in Hpdom.
    split; [done|]. split; [|split; [done|split; [|done]]].
    + rewrite (size_keys_distinct tensors _ Htdom Htnd). by rewrite length_fmap.
    + rewrite (size_keys_distinct props ("schema" :: (field_name <$> reader_fields reader))).
      * simpl. by rewrite length_fmap.
      * by rewrite list_to_set_cons.
      * by constructor.
  - intros Hbad. unfold load_file. unfold_monad.
    destruct (_load_properties table reader) as [props|e]; [|eauto].
    destruct (_load_tensors_fails (reader_tensors reader) ∅ h Hbad) as [e He].
    rewrite He. eauto.
Qed.

Lemma C8_full_load_witness :
  let fields := [string_field "general.name" "llama";
                 uint32_field "llama.block_count" 32;
                 string_array_field "tokenizer.ggml.tokens" "<s>" "</s>"] in
  let good := mk_reader fields
                [ex_f32; ex_q;
                 mk_tensor "token_embd.weight" "BF16" [2; 3]%N (tensor_data ex_bf16)] in
  let bad := mk_reader fields
               [ex_f32; mk_tensor "x" "IQ2_XXS" [256]%N (tensor_data ex_q)] in
  (exists ds h',
     load_file gguf_py_scalar_to_np good [] = Ok (ds, h') /\
     size (theta_tensors (root_theta ds)) = length (reader_tensors good) /\
     dom (theta_tensors (root_theta ds)) =
       list_to_set (tensor_name <$> reader_tensors good) /\
     size (properties ds) = S (length (reader_fields good)) /\
     dom (properties ds) =
       {[ "schema" ]} ∪ list_to_set (field_name <$> reader_fields good)) /\
  (exists e, load_file gguf_py_scalar_to_np bad [] = Raise e).
Proof.
  intros fields good bad. split.
  - apply (proj1 (C8_full_load gguf_py_scalar_to_np good [])).
    + repeat constructor.
    + compute_done.
    + compute_done.
    + compute_done.
    + repeat constructor.
  - apply (proj2 (C8_full_load gguf_py_scalar_to_np bad [])).
    right. left. reflexivity.
Defined.

(** C8, as stated, fails on three counts: a field may be named "schema" (one
    field, one property key), two fields may share a name (two fields, two
    property keys), and two descriptors may share a name (two descriptors, one
    namespace key). *)
Lemma C8_counterexample :
  (exists ds h',
     load_file gguf_py_scalar_to_np
       (mk_reader [string_field "schema" "custom"] [ex_f32]) [] = Ok (ds, h') /\
     size (properties ds) = 1%nat)
  /\ (exists ds h',
        load_file gguf_py_scalar_to_np
          (mk_reader [uint32_field "n" 1; uint32_field "n" 2] [ex_f32]) [] = Ok (ds, h') /\
        size (properties ds) = 2%nat)
  /\ (exists ds h',
        load_file gguf_py_scalar_to_np
          (mk_reader [string_field "general.name" "llama"] [ex_bf16; ex_f32]) []
        = Ok (ds, h') /\
        size (theta_tensors (root_theta ds)) = 1%nat).
Proof.
  split; [|split]; eexists _, _; (split; [vm_compute; reflexivity|]);
    vm_compute; reflexivity.
Qed.



(** * Further properties of the loader *)

(** ** Scalars and arrays *)



Lemma comprehension_inv {A B} (f : A -> result B) (l : list A) (ys : list B) :
  comprehension f l = Ok ys ->
  length ys = length l /\
  forall i x, l !! i = Some x -> exists y, f x = Ok y /\ ys !! i = Some y.
Proof.
  revert ys. induction l as [|x l IH]; intros ys; simpl.
  - intros [= <-]. split; [done|]. intros i x Hi. by rewrite lookup_nil in Hi.
  - unfold_monad. destruct (f x) as [y|] eqn:Hy; [|done].
    destruct (comprehension f l) as [ys'|]; [|done].
    intros [= <-]. destruct (IH ys' eq_refl) as [Hlen Hnth].
    split; [simpl; by rewrite Hlen|].
    intros [|i] x' Hi; simpl in *.
    + injection Hi as <-. eauto.
    + by apply Hnth.
Qed.

Section ArrayDecoding.

Context (table : GGUFValueType -> option np_dtype).

(** X2: a decoded array has one element per data index, in the order of the
    indices: the text of the indexed segment for a string array, the sanitized
    first item of the indexed segment otherwise. *)
Theorem _load_array_in_order (field : ReaderField) (values : list py_value) :
  _load_array table field = Ok values ->
  length values = length (field_data field) /\
  exists element_type,
    field_types field !! 1%nat = Some element_type /\
    forall i parts_index,
      field_data field !! i = Some parts_index ->
      exists part,
        py_getitem (field_parts field) parts_index = Ok part /\
        if bool_decide (element_type = STRING)
        then values !! i = Some (PyStr (String.string_of_list_byte (nd_bytes part)))
        else exists item, nd_getitem0 part = Ok item /\
                          values !! i = Some (_sanitize_scalar item).
Proof.
  unfold _load_array.
  destruct (field_types field) as [|t0 [|element_type [|t2 ts]]]; try done.
  replace (py_getitem [t0; element_type] 1) with (Ok element_type) by reflexivity.
  simpl. unfold_monad.
  destruct (decide (element_type = STRING)) as [Hs|Hs];
    [rewrite !(bool_decide_eq_true_2 _ Hs) | rewrite !(bool_decide_eq_false_2 _ Hs)].
  - intros Hc. apply comprehension_inv in Hc as [Hlen Hnth].
    split; [done|]. exists element_type. split; [done|].
    intros i parts_index Hi. destruct (Hnth i parts_index Hi) as (y & Hy & Hv).
    destruct (py_getitem (field_parts field) parts_index) as [part|]; [|done].
    exists part. split; [done|]. rewrite bool_decide_eq_true_2 by done.
    unfold str_utf8 in Hy. destruct (utf8_valid _); [|done].
    by injection Hy as <-.
  - case_bool_decide as Hn; [|done].
    intros Hc. apply comprehension_inv in Hc as [Hlen Hnth].
    split; [done|]. exists element_type. split; [done|].
    intros i parts_index Hi. destruct (Hnth i parts_index Hi) as (y & Hy & Hv).
    destruct (py_getitem (field_parts field) parts_index) as [part|]; [|done].
    exists part. split; [done|]. rewrite bool_decide_eq_false_2 by done.
    destruct (nd_getitem0 part) as [item|]; [|done].
    exists item. split; [done|]. by injection Hy as <-.
Qed.

(** X3: with two tags of which the second is neither a string nor a key of
    the table, the array decoder raises "unsupported array element type" with
    that tag, whatever the first tag, the data indices and the segments are. *)
Theorem _load_array_unknown_element_type (field : ReaderField)
    (container element_type : GGUFValueType) :
  field_types field = [container; element_type] ->
  element_type <> STRING ->
  table element_type = None ->
  _load_array table field = Raise (UnsupportedArrayElementType element_type).
Proof.
  intros Ht Hs Hn. unfold _load_array. rewrite Ht.
  replace (py_getitem [container; element_type] 1) with (Ok element_type)
    by reflexivity.
  simpl. unfold_monad.
  rewrite bool_decide_eq_false_2 by done.
  rewrite Hn. rewrite bool_decide_eq_false_2; [done|].
  intros [? ?]; discriminate.
Qed.

End ArrayDecoding.

Lemma _load_array_in_order_witness :
  let field := string_array_field "tokenizer.ggml.tokens" "<s>" "</s>" in
  length [PyStr "<s>"; PyStr "</s>"] = length (field_data field) /\
  exists element_type,
    field_types field !! 1%nat = Some element_type /\
    forall i parts_index,
      field_data field !! i = Some parts_index ->
      exists part,
        py_getitem (field_parts field) parts_index = Ok part /\
        if bool_decide (element_type = STRING)
        then [PyStr "<s>"; PyStr "</s>"] !! i =
             Some (PyStr (String.string_of_list_byte (nd_bytes part)))
        else exists item, nd_getitem0 part = Ok item /\
                          [PyStr "<s>"; PyStr "</s>"] !! i = Some (_sanitize_scalar item).
Proof.
  intros field.
  apply (_load_array_in_order gguf_py_scalar_to_np field [PyStr "<s>"; PyStr "</s>"]).
  vm_compute. reflexivity.
Defined.

Lemma _load_array_unknown_element_type_witness :
  _load_array gguf_py_scalar_to_np
    (mk_field "rope.sections" [u32 9; u32 9; u64 0] [] [ARRAY; ARRAY])
  = Raise (UnsupportedArrayElementType ARRAY).
Proof.
  apply (_load_array_unknown_element_type gguf_py_scalar_to_np _ ARRAY ARRAY);
    [reflexivity | discriminate | reflexivity].
Defined.

(** ** Metadata extraction: what a field does to the dictionary *)

Section FieldEffects.

Context (table : GGUFValueType -> option np_dtype).

(** A field either leaves the dictionary as it is or stores one value under
    its own name. *)
Lemma _load_field_frame (field : ReaderField) (props props' : gmap string py_value) :
  _load_field table field props = Ok props' ->
  props' = props \/ exists v, props' = <[field_name field := v]> props.
Proof.
  unfold _load_field. unfold_monad.
  repeat case_match; intros; simplify_eq; eauto.
Qed.

Lemma _load_fields_frame (fields : list ReaderField)
    (props props' : gmap string py_value) :
  _load_fields table fields props = Ok props' ->
  dom props ⊆ dom props' /\
  dom props' ⊆ dom props ∪ list_to_set (field_name <$> fields) /\
  forall k, k ∉ field_name <$> fields -> props' !! k = props !! k.
Proof.
  revert props. induction fields as [|field fields IH]; intros props; simpl.
  - intros [= <-]. split; [done|]. split; [set_solver | done].
  - unfold_monad. destruct (_load_field table field props) as [p1|] eqn:Hf; [|done].
    intros Hrest. destruct (IH p1 Hrest) as (Hsub & Hsup & Hother).
    apply _load_field_frame in Hf as [->|[v ->]].
    + split; [done|]. split; [set_solver|].
      intros k Hk. apply Hother. set_solver.
    + rewrite dom_insert_L in *. split; [set_solver|]. split; [set_solver|].
      intros k Hk. rewrite Hother by set_solver.
      apply lookup_insert_ne. set_solver.
Qed.

Lemma _load_fields_split (before after : list ReaderField) (field : ReaderField)
    (props props' : gmap string py_value) :
  _load_fields table (before ++ field :: after) props = Ok props' ->
  exists p1 p2,
    _load_fields table before props = Ok p1 /\
    _load_field table field p1 = Ok p2 /\
    _load_fields table after p2 = Ok props'.
Proof.
  rewrite _load_fields_app. intros H.
  apply result_bind_ok in H as (p1 & Hp1 & H). simpl in H.
  apply result_bind_ok in H as (p2 & Hp2 & H). eauto.
Qed.

Lemma _load_fields_raise_at (before after : list ReaderField) (field : ReaderField)
    (props p1 : gmap string py_value) (e : exn) :
  _load_fields table before props = Ok p1 ->
  _load_field table field p1 = Raise e ->
  _load_fields table (before ++ field :: after) props = Raise e.
Proof.
  intros Hb Hf. rewrite _load_fields_app, Hb. simpl. unfold_monad. by rewrite Hf.
Qed.

End FieldEffects.

(** X4: extraction stops at the first field that raises: when the fields
    before it load, the exception of that field is the exception of the whole
    extraction, whatever fields follow and whatever the tensors are. *)
Theorem _load_properties_first_error
    (table : GGUFValueType -> option np_dtype)
    (before after : list ReaderField) (field : ReaderField)
    (tensors tensors' : list ReaderTensor) (props : gmap string py_value) (e : exn) :
  _load_properties table (mk_reader before tensors') = Ok props ->
  _load_field table field props = Raise e ->
  _load_properties table (mk_reader (before ++ field :: after) tensors) = Raise e.
Proof.
  unfold _load_properties. simpl. intros Hb Hf.
  by apply (_load_fields_raise_at table before after field _ props).
Qed.

Lemma _load_properties_first_error_witness :
  _load_properties gguf_py_scalar_to_np
    (mk_reader ([string_field "general.name" "llama"]
                ++ nested_array_field "rope.sections"
                :: [two_scalar_tags_field "bad"; untagged_field "worse"]) [ex_f32])
  = Raise (UnsupportedArrayType [ARRAY; ARRAY; INT32]).
Proof.
  apply (_load_properties_first_error gguf_py_scalar_to_np
           [string_field "general.name" "llama"] _ (nested_array_field "rope.sections")
           [ex_f32] []
           {[ "schema" := PyStr "GGUF"; "general.name" := PyStr "llama" ]}).
  - vm_compute. reflexivity.
  - vm_compute. reflexivity.
Defined.

(** X5: a field with two tags or more whose first tag is not [ARRAY] makes
    extraction raise "Invalid field type." once the fields before it have
    loaded. *)
Theorem _load_properties_invalid_field_type
    (table : GGUFValueType -> option np_dtype)
    (before after : list ReaderField) (field : ReaderField)
    (tensors : list ReaderTensor) (t : GGUFValueType) (rest : list GGUFValueType)
    (props : gmap string py_value) :
  _load_properties table (mk_reader before tensors) = Ok props ->
  field_types field = t :: rest -> rest <> [] -> t <> ARRAY ->
  _load_properties table (mk_reader (before ++ field :: after) tensors) =
  Raise InvalidFieldType.
Proof.
  unfold _load_properties. simpl. intros Hb Ht Hrest Harray.
  apply (_load_fields_raise_at table before after field _ props); [done|].
  by apply (_load_field_invalid_type table field t rest).
Qed.

Lemma _load_properties_invalid_field_type_witness :
  _load_properties gguf_py_scalar_to_np
    (mk_reader ([uint32_field "llama.block_count" 32]
                ++ two_scalar_tags_field "bad" :: [string_field "general.name" "llama"])
               [])
  = Raise InvalidFieldType.
Proof.
  apply (_load_properties_invalid_field_type gguf_py_scalar_to_np
           [uint32_field "llama.block_count" 32] _ (two_scalar_tags_field "bad")
           [] UINT32 [UINT32]
           {[ "schema" := PyStr "GGUF"; "llama.block_count" := PyInt 32 ]}).
  - vm_compute. reflexivity.
  - reflexivity.
  - discriminate.
  - discriminate.
Defined.

(** X6: an array field with three tags or more makes extraction raise
    "unsupported array type" with the field's tag list, once the fields before
    it have loaded. *)
Theorem _load_properties_long_array
    (table : GGUFValueType -> option np_dtype)
    (before after : list ReaderField) (field : ReaderField)
    (tensors : list ReaderTensor) (rest : list GGUFValueType)
    (props : gmap string py_value) :
  _load_properties table (mk_reader before tensors) = Ok props ->
  field_types field = ARRAY :: rest -> (2 <= length rest)%nat ->
  _load_properties table (mk_reader (before ++ field :: after) tensors) =
  Raise (UnsupportedArrayType (field_types field)).
Proof.
  unfold _load_properties. simpl. intros Hb Ht Hlen.
  apply (_load_fields_raise_at table before after field _ props); [done|].
  by apply (_load_field_long_array table field rest).
Qed.

Lemma _load_properties_long_array_witness :
  _load_properties gguf_py_scalar_to_np
    (mk_reader ([] ++ nested_array_field "rope.sections" :: []) [ex_q])
  = Raise (UnsupportedArrayType (field_types (nested_array_field "rope.sections"))).
Proof.
  apply (_load_properties_long_array gguf_py_scalar_to_np
           [] [] (nested_array_field "rope.sections") [ex_q] [ARRAY; INT32]
           {[ "schema" := PyStr "GGUF" ]}).
  - reflexivity.
  - reflexivity.
  - simpl. lia.
Defined.

(** X7: a field without any tag makes extraction raise [IndexError] (from
    [field.types[0]]), not one of the loader's own errors. *)
Theorem _load_properties_untagged_field
    (table : GGUFValueType -> option np_dtype)
    (before after : list ReaderField) (field : ReaderField)
    (tensors : list ReaderTensor) (props : gmap string py_value) :
  _load_properties table (mk_reader before tensors) = Ok props ->
  field_types field = [] ->
  _load_properties table (mk_reader (before ++ field :: after) tensors) =
  Raise IndexError.
Proof.
  unfold _load_properties. simpl. intros Hb Ht.
  apply (_load_fields_raise_at table before after field _ props); [done|].
  unfold _load_field. by rewrite Ht.
Qed.

Lemma _load_properties_untagged_field_witness :
  _load_properties gguf_py_scalar_to_np
    (mk_reader ([] ++ untagged_field "x" :: [string_field "general.name" "llama"]) [])
  = Raise IndexError.
Proof.
  apply (_load_properties_untagged_field gguf_py_scalar_to_np
           [] _ (untagged_field "x") [] {[ "schema" := PyStr "GGUF" ]});
    reflexivity.
Defined.

(** X8: whenever extraction returns, the result has a "schema" entry, every
    key is "schema" or the name of a field, and there are at most M+1 keys
    for M fields. *)
Theorem _load_properties_keys
    (table : GGUFValueType -> option np_dtype) (reader : GGUFReader)
    (props : gmap string py_value) :
  _load_properties table reader = Ok props ->
  is_Some (props !! "schema") /\
  dom props ⊆ {[ "schema" ]} ∪ list_to_set (field_name <$> reader_fields reader) /\
  (size props <= S (length (reader_fields reader)))%nat.
Proof.
  unfold _load_properties. intros H.
  apply _load_fields_frame in H as (Hsub & Hsup & _).
  rewrite dom_singleton_L in *. split; [|split; [done|]].
  - apply elem_of_dom. set_solver.
  - rewrite <- (size_dom (D:=gset string)).
    apply subseteq_size in Hsup.
    rewrite size_union_alt, size_singleton in Hsup.
    pose proof (size_list_to_set_le (field_name <$> reader_fields reader)) as Hle.
    rewrite length_fmap in Hle.
    assert (Hdiff : list_to_set (field_name <$> reader_fields reader) ∖ {["schema"]}
                    ⊆ (list_to_set (field_name <$> reader_fields reader) : gset string))
      by set_solver.
    apply subseteq_size in Hdiff. lia.
Qed.

Lemma _load_properties_keys_witness :
  let reader := mk_reader [uint32_field "n" 1; empty_array_field "merges";
                           uint32_field "n" 2] [] in
  let props : gmap string py_value := {[ "schema" := PyStr "GGUF"; "n" := PyInt 2 ]} in
  is_Some (props !! "schema") /\
  dom props ⊆ {[ "schema" ]} ∪ list_to_set (field_name <$> reader_fields reader) /\
  (size props <= S (length (reader_fields reader)))%nat.
Proof.
  intros reader props.
  apply (_load_properties_keys gguf_py_scalar_to_np reader props).
  vm_compute. reflexivity.
Defined.

(** X9: what extraction stores for a field is read off the field alone, and
    the last field of a name decides the entry of that name: the text of the
    final segment for a string, the sanitized first item of the final segment
    for a known scalar, the decoded list for an array. *)
Theorem _load_properties_entry
    (table : GGUFValueType -> option np_dtype) (reader : GGUFReader)
    (props : gmap string py_value)
    (before after : list ReaderField) (field : ReaderField) :
  _load_properties table reader = Ok props ->
  reader_fields reader = before ++ field :: after ->
  field_name field ∉ field_name <$> after ->
  (field_types field = [STRING] ->
   exists part,
     py_getitem (field_parts field) (-1) = Ok part /\
     props !! field_name field =
       Some (PyStr (String.string_of_list_byte (nd_bytes part)))) /\
  (forall t,
     field_types field = [t] -> t <> STRING -> is_Some (table t) ->
     exists part item,
       py_getitem (field_parts field) (-1) = Ok part /\
       nd_getitem0 part = Ok item /\
       props !! field_name field = Some (_sanitize_scalar item)) /\
  (forall rest,
     field_types field = ARRAY :: rest -> rest <> [] ->
     exists values,
       _load_array table field = Ok values /\
       props !! field_name field = Some (PyList values)).
Proof.
  unfold _load_properties. intros Hload Hsplit Hlast. rewrite Hsplit in Hload.
  apply _load_fields_split in Hload as (p1 & p2 & _ & Hfield & Hafter).
  apply _load_fields_frame in Hafter as (_ & _ & Hother).
  rewrite (Hother _ Hlast). clear Hother.
  unfold _load_field in Hfield. split; [|split].
  - intros Ht. rewrite Ht in Hfield.
    replace (py_getitem [STRING] 0) with (Ok STRING) in Hfield by reflexivity.
    simpl in Hfield. unfold_monad.
    destruct (py_getitem (field_parts field) (-1)) as [part|]; [|done].
    exists part. split; [done|]. unfold str_utf8 in Hfield.
    destruct (utf8_valid _); [|done]. injection Hfield as <-.
    apply lookup_insert_eq.
  - intros t Ht Hs Hn. rewrite Ht in Hfield.
    replace (py_getitem [t] 0) with (Ok t) in Hfield by reflexivity.
    simpl in Hfield. unfold_monad.
    rewrite bool_decide_eq_false_2, bool_decide_eq_true_2 in Hfield by done.
    destruct (py_getitem (field_parts field) (-1)) as [part|]; [|done].
    destruct (nd_getitem0 part) as [item|] eqn:Hitem; [|done].
    exists part, item. split; [done|]. split; [done|].
    injection Hfield as <-. apply lookup_insert_eq.
  - intros rest Ht Hrest. rewrite Ht in Hfield.
    destruct rest as [|t1 rest]; [done|].
    replace (py_getitem (ARRAY :: t1 :: rest) 0) with (Ok ARRAY) in Hfield
      by reflexivity.
    simpl in Hfield. unfold_monad.
    destruct (_load_array table field) as [values|] eqn:Hvalues; [|done].
    exists values. split; [done|].
    injection Hfield as <-. apply lookup_insert_eq.
Qed.

Lemma _load_properties_entry_witness :
  let field := string_field "general.name" "mistral" in
  let props : gmap string py_value :=
    {[ "schema" := PyStr "GGUF"; "general.name" := PyStr "mistral";
       "llama.block_count" := PyInt 32 ]} in
  exists part,
    py_getitem (field_parts field) (-1) = Ok part /\
    props !! field_name field =
      Some (PyStr (String.string_of_list_byte (nd_bytes part))).
Proof.
  intros field props.
  apply (proj1 (_load_properties_entry gguf_py_scalar_to_np
                  (mk_reader [string_field "general.name" "llama";
                              string_field "general.name" "mistral";
                              uint32_field "llama.block_count" 32] [])
                  props
                  [string_field "general.name" "llama"]
                  [uint32_field "llama.block_count" 32] field
                  ltac:(vm_compute; reflexivity) eq_refl ltac:(compute_done))).
  reflexivity.
Defined.

(** ** Tensor materialization: what it creates *)

(** X10: externalizing creates exactly one tensor object and returns it; the
    object views the bytes and element type of the input array, has the
    input's shape (or the requested one) and carries the annotation with the
    given name and the empty scope; the objects that existed are untouched. *)
Theorem _externalize_tensor_effect
    (name : string) (data : ndarray) (logical_shape : option (list Z))
    (h h' : heap) (t : tensor_ref) :
  _externalize_tensor name data logical_shape h = Ok (t, h') ->
  t = length h /\
  exists o,
    h' = h ++ [o] /\
    _turbine_external_tensor o = Some (mk_trait name "") /\
    t_storage o = nd_buffer data /\
    t_dtype o = torch_of_numpy (nd_dtype data) /\
    match logical_shape with
    | None => t_shape o = nd_shape data
    | Some shape => Forall (fun d => 0 <= d) shape -> t_shape o = shape
    end.
Proof.
  destruct logical_shape as [shape|].
  - rewrite _externalize_tensor_shaped.
    destruct (np_reshape data shape) as [reshaped|] eqn:Hr; [|done].
    intros [= <- <-]. split; [done|]. exists (externalized name reshaped).
    destruct (np_reshape_keeps _ _ _ Hr) as [Hd Hb]. simpl.
    rewrite Hd, Hb. repeat split; try done.
    intros Hpos. by rewrite (np_reshape_nonneg _ _ _ Hpos Hr).
  - rewrite _externalize_tensor_flat. intros [= <- <-].
    split; [done|]. by exists (externalized name data).
Qed.

Lemma _externalize_tensor_effect_witness :
  let data := tensor_data ex_f32 in
  let o := externalized "w" (mk_ndarray np_float32 [4; 2] (nd_buffer data)) in
  0%nat = length (@nil Tensor) /\
  exists o',
    [o] = [] ++ [o'] /\
    _turbine_external_tensor o' = Some (mk_trait "w" "") /\
    t_storage o' = nd_buffer data /\
    t_dtype o' = torch_of_numpy (nd_dtype data) /\
    (Forall (fun d => 0 <= d) [4; 2] -> t_shape o' = [4; 2]).
Proof.
  intros data o.
  apply (_externalize_tensor_effect "w" data (Some [4; 2]) [] [o] 0%nat).
  vm_compute. reflexivity.
Defined.






(** X12: the declared names F16, F32 and F64 are not checked against the
    storage: the tensor produced has the element type of the raw array,
    whichever of the three names was declared, and views the raw bytes. *)
Theorem _wrap_tensor_float_dtype_from_storage
    (name : string) (logical_shape : list Z) (type_name : string)
    (data : ndarray) (h h' : heap) (v : InferenceTensor) :
  type_name ∈ ["F16"; "F32"; "F64"] ->
  _wrap_tensor name logical_shape type_name data h = Ok (v, h') ->
  exists o, h' !! leaf_tensor v = Some o /\
            t_dtype o = torch_of_numpy (nd_dtype data) /\
            t_storage o = nd_buffer data.
Proof.
  intros Hin. rewrite _wrap_tensor_float by done.
  destruct (np_reshape _ _) as [reshaped|] eqn:Hr; [|done].
  intros [= <- <-]. exists (externalized name reshaped). simpl.
  destruct (np_reshape_keeps _ _ _ Hr) as [Hd Hb].
  rewrite list_lookup_middle by done. by rewrite Hd, Hb.
Qed.

Lemma _wrap_tensor_float_dtype_from_storage_witness :
  exists o,
    [externalized "w" (mk_ndarray np_float32 [2; 4] (nd_buffer (tensor_data ex_f32)))]
      !! leaf_tensor (DefaultPrimitiveTensor "w" 0) = Some o /\
    t_dtype o = torch_of_numpy (nd_dtype (tensor_data ex_f32)) /\
    t_storage o = nd_buffer (tensor_data ex_f32).
Proof.
  apply (_wrap_tensor_float_dtype_from_storage "w" [4; 2] "F16"
           (tensor_data ex_f32) []).
  - repeat constructor.
  - vm_compute. reflexivity.
Defined.

(** X13: bfloat16 storage given as bytes whose last axis holds an odd number
    of them cannot be viewed as 16-bit values: dispatch raises the view error
    of numpy, whatever the declared shape. *)
Theorem _wrap_tensor_bf16_odd_bytes
    (name : string) (logical_shape : list Z) (data : ndarray) (h : heap)
    (front : list Z) (last : Z) :
  nd_dtype data = np_uint8 ->
  nd_shape data = front ++ [last] ->
  last mod 2 = 1 ->
  _wrap_tensor name logical_shape "BF16" data h = Raise NumpyError.
Proof.
  intros Hd Hshape Hodd. rewrite _wrap_tensor_bf16.
  rewrite bool_decide_eq_true_2 by done.
  unfold np_view, view_shape. rewrite Hd, Hshape, reverse_snoc. simpl.
  rewrite Z.mul_1_r, Hodd. done.
Qed.

Lemma _wrap_tensor_bf16_odd_bytes_witness :
  _wrap_tensor "w" [1; 3] "BF16" (mk_ndarray np_uint8 [3; 1] (bytes_of "abc")) []
  = Raise NumpyError.
Proof.
  apply (_wrap_tensor_bf16_odd_bytes "w" [1; 3]
           (mk_ndarray np_uint8 [3; 1] (bytes_of "abc")) [] [3] 1); reflexivity.
Defined.

(** ** Dispatch and assembly against the object store *)

(** A successful dispatch went through one of the three branches. *)
Lemma _wrap_tensor_ok_inv (name : string) (logical_shape : list Z)
    (type_name : string) (data : ndarray) (h h' : heap) (v : InferenceTensor) :
  _wrap_tensor name logical_shape type_name data h = Ok (v, h') ->
  (type_name <> "BF16" /\
   exists a, v = DefaultPrimitiveTensor name (length h) /\
             h' = h ++ [externalized name a]) \/
  (type_name = "BF16" /\
   exists a, v = DefaultPrimitiveTensor name (S (length h)) /\
             h' = h ++ [externalized name a;
                        mk_Tensor torch_bfloat16 (nd_shape a) (nd_buffer a) None]) \/
  (type_name <> "BF16" /\
   exists layout, v = QuantizedTensor layout name (length h) (reverse logical_shape) /\
                  h' = h ++ [externalized name data]).
Proof.
  destruct (decide (type_name ∈ ["F16"; "F32"; "F64"])) as [Hf|Hf].
  - rewrite _wrap_tensor_float by done.
    destruct (np_reshape _ _) as [reshaped|]; [|done].
    intros [= <- <-]. left. split; [|eauto].
    intros ->. set_unfold. naive_solver.
  - destruct (decide (type_name = "BF16")) as [->|Hb].
    + rewrite _wrap_tensor_bf16.
      destruct (bool_decide _); [|done].
      destruct (np_view _ _) as [as_int16|]; [|done].
      destruct (np_reshape _ _) as [reshaped|]; [|done].
      intros [= <- <-]. right. left. eauto.
    + destruct (_quantized_types type_name) as [layout|] eqn:Hq.
      * rewrite (_wrap_tensor_quantized _ _ _ _ _ layout) by done.
        intros [= <- <-]. right. right. eauto.
      * rewrite _wrap_tensor_unsupported; [done | set_solver | done].
Qed.

(** X14: a successful dispatch only adds to the object store: one object, or
    two for bfloat16; the leaf holds the last object created and bears the
    given name. *)
Theorem _wrap_tensor_extends_store
    (name : string) (logical_shape : list Z) (type_name : string)
    (data : ndarray) (h h' : heap) (v : InferenceTensor) :
  _wrap_tensor name logical_shape type_name data h = Ok (v, h') ->
  inference_name v = name /\
  exists created,
    h' = h ++ created /\
    length created = (if bool_decide (type_name = "BF16") then 2 else 1)%nat /\
    S (leaf_tensor v) = length h'.
Proof.
  intros H. apply _wrap_tensor_ok_inv in H
    as [(Hb & a & -> & ->)|[(-> & a & -> & ->)|(Hb & layout & -> & ->)]].
  - split; [done|]. eexists. split; [done|].
    rewrite bool_decide_eq_false_2 by done.
    rewrite length_app. simpl. split; [done | lia].
  - split; [done|]. eexists. split; [done|].
    rewrite length_app. simpl. split; [done | lia].
  - split; [done|]. eexists. split; [done|].
    rewrite bool_decide_eq_false_2 by done.
    rewrite length_app. simpl. split; [done | lia].
Qed.

Lemma _wrap_tensor_extends_store_witness :
  let h := [externalized "q" (tensor_data ex_q)] in
  let a := mk_ndarray np_int16 [3; 2] (nd_buffer (tensor_data ex_bf16)) in
  let h' := h ++ [externalized "w" a; mk_Tensor torch_bfloat16 [3; 2] (nd_buffer a) None] in
  inference_name (DefaultPrimitiveTensor "w" 2) = "w" /\
  exists created,
    h' = h ++ created /\
    length created = (if bool_decide ("BF16" = "BF16") then 2 else 1)%nat /\
    S (leaf_tensor (DefaultPrimitiveTensor "w" 2)) = length h'.
Proof.
  intros h a h'.
  apply (_wrap_tensor_extends_store "w" [2; 3] "BF16" (tensor_data ex_bf16) h h').
  vm_compute. reflexivity.
Defined.

Section AssemblyFacts.

Context (table : GGUFValueType -> option np_dtype).

Lemma _load_tensors_store (descriptors : list ReaderTensor)
    (acc acc' : gmap string InferenceTensor) (h h' : heap) :
  _load_tensors descriptors acc h = Ok (acc', h') ->
  exists created,
    h' = h ++ created /\
    length created =
      (length descriptors + length (bf16_descriptors descriptors))%nat.
Proof.
  revert acc h. induction descriptors as [|tensor rest IH]; intros acc h; simpl.
  - intros [= <- <-]. exists []. by rewrite app_nil_r.
  - unfold_monad.
    destruct (_load_tensor tensor h) as [[v h1]|] eqn:Hv; [|done].
    intros Hrest. apply IH in Hrest as (created' & -> & Hlen').
    apply _wrap_tensor_extends_store in Hv as (_ & created & -> & Hlen & _).
    exists (created ++ created'). split; [by rewrite app_assoc|].
    rewrite length_app, Hlen, Hlen'. unfold bf16_descriptors.
    case_bool_decide as Hb.
    + rewrite filter_cons_True by done. simpl. lia.
    + rewrite filter_cons_False by done. lia.
Qed.

(** One pass of the loop keeps the mapping sound against the store. *)
Lemma _load_tensors_namespace_ok (start : nat) (descriptors : list ReaderTensor)
    (acc acc' : gmap string InferenceTensor) (h h' : heap) :
  _load_tensors descriptors acc h = Ok (acc', h') ->
  (start <= length h)%nat ->
  namespace_ok start acc h ->
  namespace_ok start acc' h'.
Proof.
  revert acc h. induction descriptors as [|tensor rest IH]; intros acc h; simpl.
  - by intros [= <- <-].
  - unfold_monad.
    destruct (_load_tensor tensor h) as [[v h1]|] eqn:Hv; [|done].
    intros Hrest Hstart [Hleaves Hdistinct].
    pose proof Hv as Hext.
    apply _wrap_tensor_extends_store in Hext as (Hname & created & -> & Hlen & Hleaf).
    assert (Hnew : (length h <= leaf_tensor v)%nat).
    { rewrite length_app in Hleaf.
      apply _wrap_tensor_ok_inv in Hv
        as [(_ & a & -> & _)|[(_ & a & -> & _)|(_ & layout & -> & _)]]; simpl; lia. }
    assert (Hsound : leaf_annotated (h ++ created) (tensor_name tensor) v).
    { split; [done|].
      apply _wrap_tensor_ok_inv in Hv
        as [(_ & a & -> & Heq)|[(_ & a & -> & Heq)|(_ & layout & -> & Heq)]];
        apply app_inv_head in Heq; subst created; simpl.
      - exists (externalized (tensor_name tensor) a).
        by rewrite list_lookup_middle.
      - eexists. rewrite (lookup_app_r h) by lia.
        replace (S (length h) - length h)%nat with 1%nat by lia.
        split; [reflexivity | done].
      - exists (externalized (tensor_name tensor) (tensor_data tensor)).
        by rewrite list_lookup_middle. }
    apply (IH _ _ Hrest); [rewrite length_app; lia|]. split.
    + intros k v' Hk. destruct (decide (tensor_name tensor = k)) as [<-|Hne].
      * rewrite lookup_insert_eq in Hk. injection Hk as <-.
        split; [|done]. rewrite length_app in *. lia.
      * rewrite lookup_insert_ne in Hk by done.
        destruct (Hleaves k v' Hk) as [Hrange (Hn & o & Ho & Ha)].
        split; [rewrite length_app; lia|]. split; [done|].
        exists o. split; [|done]. rewrite lookup_app_l by lia. done.
    + intros k1 k2 v1 v2 H1 H2 Heq.
      destruct (decide (tensor_name tensor = k1)) as [<-|Hne1];
        destruct (decide (tensor_name tensor = k2)) as [<-|Hne2]; [done| | |].
      * rewrite lookup_insert_eq in H1. injection H1 as <-.
        rewrite lookup_insert_ne in H2 by done.
        destruct (Hleaves k2 v2 H2) as [Hrange _]. lia.
      * rewrite lookup_insert_eq in H2. injection H2 as <-.
        rewrite lookup_insert_ne in H1 by done.
        destruct (Hleaves k1 v1 H1) as [Hrange _]. lia.
      * rewrite lookup_insert_ne in H1, H2 by done. eauto.
Qed.

Lemma load_file_inv (reader : GGUFReader) (h h' : heap) (ds : Dataset) :
  load_file table reader h = Ok (ds, h') ->
  _load_properties table reader = Ok (properties ds) /\
  _load_tensors (reader_tensors reader) ∅ h = Ok (theta_tensors (root_theta ds), h').
Proof.
  unfold load_file. unfold_monad.
  destruct (_load_properties table reader) as [props|]; [|done].
  destruct (_load_tensors _ _ _) as [[tensors h1]|]; [|done].
  by intros [= <- <-].
Qed.

End AssemblyFacts.

(** X15: a full load only adds to the object store, and it adds one tensor
    object per descriptor plus one more per bfloat16 descriptor (whether or
    not names repeat). *)
Theorem load_file_object_count
    (table : GGUFValueType -> option np_dtype) (reader : GGUFReader)
    (h h' : heap) (ds : Dataset) :
  load_file table reader h = Ok (ds, h') ->
  exists created,
    h' = h ++ created /\
    length created =
      (length (reader_tensors reader)
       + length (bf16_descriptors (reader_tensors reader)))%nat.
Proof.
  intros H. apply load_file_inv in H as [_ H].
  by apply _load_tensors_store in H.
Qed.

Lemma load_file_object_count_witness :
  let reader := mk_reader [] [ex_bf16; ex_q] in
  let a := mk_ndarray np_int16 [3; 2] (nd_buffer (tensor_data ex_bf16)) in
  let created := [externalized "w" a;
                  mk_Tensor torch_bfloat16 [3; 2] (nd_buffer a) None;
                  externalized "q" (tensor_data ex_q)] in
  exists created',
    [] ++ created = [] ++ created' /\
    length created' =
      (length (reader_tensors reader)
       + length (bf16_descriptors (reader_tensors reader)))%nat.
Proof.
  intros reader a created.
  apply (load_file_object_count gguf_py_scalar_to_np reader [] ([] ++ created)
           (mk_Dataset {[ "schema" := PyStr "GGUF" ]}
              (mk_Theta {[ "w" := DefaultPrimitiveTensor "w" 1;
                           "q" := QuantizedTensor Q4_1 "q" 2 [2; 32] ]}))).
  vm_compute. reflexivity.
Defined.

(** X16: in the namespace of a full load every tensor bears the name it is
    stored under, its leaf holds an object created by this load, and that
    object carries the annotation (name, empty scope) unless its dtype is
    bfloat16. *)
Theorem load_file_leaves_annotated
    (table : GGUFValueType -> option np_dtype) (reader : GGUFReader)
    (h h' : heap) (ds : Dataset) (k : string) (v : InferenceTensor) :
  load_file table reader h = Ok (ds, h') ->
  theta_tensors (root_theta ds) !! k = Some v ->
  (length h <= leaf_tensor v < length h')%nat /\
  inference_name v = k /\
  exists o, h' !! leaf_tensor v = Some o /\
            (t_dtype o <> torch_bfloat16 ->
             _turbine_external_tensor o = Some (mk_trait k "")).
Proof.
  intros H Hk. apply load_file_inv in H as [_ H].
  apply (_load_tensors_namespace_ok (length h)) in H as [Hleaves _]; [|lia|].
  - by destruct (Hleaves k v Hk) as [Hrange [Hn Ho]].
  - split; intros *; by rewrite lookup_empty.
Qed.

Lemma load_file_leaves_annotated_witness :
  let a := mk_ndarray np_float32 [2; 4] (nd_buffer (tensor_data ex_f32)) in
  let h' := [externalized "q" (tensor_data ex_q); externalized "w" a] in
  let v := DefaultPrimitiveTensor "w" 1 in
  (length (@nil Tensor) <= leaf_tensor v < length h')%nat /\
  inference_name v = "w" /\
  exists o, h' !! leaf_tensor v = Some o /\
            (t_dtype o <> torch_bfloat16 ->
             _turbine_external_tensor o = Some (mk_trait "w" "")).
Proof.
  intros a h' v.
  apply (load_file_leaves_annotated gguf_py_scalar_to_np
           (mk_reader [] [ex_q; ex_f32]) [] h'
           (mk_Dataset {[ "schema" := PyStr "GGUF" ]}
              (mk_Theta {[ "q" := QuantizedTensor Q4_1 "q" 0 [2; 32]; "w" := v ]}))
           "w" v).
  - vm_compute. reflexivity.
  - vm_compute. reflexivity.
Defined.

(** X17: no tensor object is shared: two different names of the namespace
    never hold the same object. *)
Theorem load_file_leaves_distinct
    (table : GGUFValueType -> option np_dtype) (reader : GGUFReader)
    (h h' : heap) (ds : Dataset) (k1 k2 : string) (v1 v2 : InferenceTensor) :
  load_file table reader h = Ok (ds, h') ->
  theta_tensors (root_theta ds) !! k1 = Some v1 ->
  theta_tensors (root_theta ds) !! k2 = Some v2 ->
  k1 <> k2 ->
  leaf_tensor v1 <> leaf_tensor v2.
Proof.
  intros H H1 H2 Hne Heq. apply load_file_inv in H as [_ H].
  apply (_load_tensors_namespace_ok (length h)) in H as [_ Hdistinct]; [|lia|].
  - by apply Hne, (Hdistinct k1 k2 v1 v2).
  - split; intros *; by rewrite lookup_empty.
Qed.

Lemma load_file_leaves_distinct_witness :
  leaf_tensor (QuantizedTensor Q4_1 "q" 0 [2; 32]) <>
  leaf_tensor (DefaultPrimitiveTensor "w" 1).
Proof.
  apply (load_file_leaves_distinct gguf_py_scalar_to_np
           (mk_reader [] [ex_q; ex_f32]) []
           [externalized "q" (tensor_data ex_q);
            externalized "w" (mk_ndarray np_float32 [2; 4] (nd_buffer (tensor_data ex_f32)))]
           (mk_Dataset {[ "schema" := PyStr "GGUF" ]}
              (mk_Theta {[ "q" := QuantizedTensor Q4_1 "q" 0 [2; 32];
                           "w" := DefaultPrimitiveTensor "w" 1 ]}))
           "q" "w").
  - vm_compute. reflexivity.
  - vm_compute. reflexivity.
  - vm_compute. reflexivity.
  - discriminate.
Defined.

(** The exception a descriptor raises does not depend on the object store. *)
Lemma _load_tensor_error_any_store (tensor : ReaderTensor) (h1 h2 : heap) (e : exn) :
  _load_tensor tensor h1 = Raise e -> _load_tensor tensor h2 = Raise e.
Proof.
  unfold _load_tensor.
  destruct (decide (tensor_type_name tensor ∈ ["F16"; "F32"; "F64"])) as [Hf|Hf].
  - rewrite !_wrap_tensor_float by done. by destruct (np_reshape _ _).
  - destruct (decide (tensor_type_name tensor = "BF16")) as [Hb|Hb].
    + rewrite Hb, !_wrap_tensor_bf16.
      destruct (bool_decide _); [|done].
      destruct (np_view _ _); [|done]. by destruct (np_reshape _ _).
    + destruct (_quantized_types (tensor_type_name tensor)) as [layout|] eqn:Hq.
      * by rewrite (_wrap_tensor_quantized _ _ _ _ _ layout).
      * rewrite !_wrap_tensor_unsupported; [done | set_solver | done | set_solver | done].
Qed.

(** X18: a full load stops at the first descriptor that cannot be
    reconstructed: with metadata extracted and the descriptors before it
    reconstructed, the load raises that descriptor's exception, whatever
    descriptors follow. *)
Theorem load_file_first_tensor_error
    (table : GGUFValueType -> option np_dtype) (reader : GGUFReader) (h : heap)
    (props : gmap string py_value)
    (before after : list ReaderTensor) (failing : ReaderTensor) (e : exn) :
  _load_properties table reader = Ok props ->
  reader_tensors reader = before ++ failing :: after ->
  Forall (fun tensor => tensor_reconstructs tensor = true) before ->
  _load_tensor failing [] = Raise e ->
  load_file table reader h = Raise e.
Proof.
  intros Hprops Hsplit Hbefore Hfail. unfold load_file. unfold_monad.
  rewrite Hprops, Hsplit, _load_tensors_app.
  destruct (_load_tensors_reconstructs before ∅ h Hbefore) as (acc & h1 & Hacc & _).
  rewrite Hacc. simpl. unfold_monad.
  by rewrite (_load_tensor_error_any_store failing [] h1 e Hfail).
Qed.

Lemma load_file_first_tensor_error_witness :
  load_file gguf_py_scalar_to_np
    (mk_reader [string_field "general.name" "llama"]
       [ex_q; mk_tensor "x" "IQ2_XXS" [256]%N (tensor_data ex_q);
        mk_tensor "y" "F32" [5]%N (tensor_data ex_f32)]) []
  = Raise (UnsupportedGgufTensorType "IQ2_XXS").
Proof.
  apply (load_file_first_tensor_error gguf_py_scalar_to_np _ []
           {[ "schema" := PyStr "GGUF"; "general.name" := PyStr "llama" ]}
           [ex_q] [mk_tensor "y" "F32" [5]%N (tensor_data ex_f32)]
           (mk_tensor "x" "IQ2_XXS" [256]%N (tensor_data ex_q))).
  - vm_compute. reflexivity.
  - reflexivity.
  - repeat constructor.
  - vm_compute. reflexivity.
Defined.

(** X19: the properties-only load and the full load agree on the metadata:
    the mapping of a dataset returned by the full load is what the
    properties-only load returns, and when the properties-only load raises
    the full load raises the same exception before looking at any tensor. *)
Theorem load_properties_agrees_with_load_file
    (table : GGUFValueType -> option np_dtype) (reader : GGUFReader) (h : heap) :
  (forall ds h', load_file table reader h = Ok (ds, h') ->
                 load_properties table reader = Ok (properties ds)) /\
  (forall e, load_properties table reader = Raise e ->
             load_file table reader h = Raise e).
Proof.
  split.
  - intros ds h' H. by apply load_file_inv in H as [H _].
  - unfold load_properties, load_file. unfold_monad. by intros e ->.
Qed.

Lemma load_properties_agrees_with_load_file_witness :
  load_properties gguf_py_scalar_to_np
    (mk_reader [uint32_array_field "rope.dims" 64 128] [ex_q]) =
    Ok (properties
          (mk_Dataset
             {[ "schema" := PyStr "GGUF"; "rope.dims" := PyList [PyInt 64; PyInt 128] ]}
             (mk_Theta {[ "q" := QuantizedTensor Q4_1 "q" 0 [2; 32] ]})))
  /\ load_file gguf_py_scalar_to_np
       (mk_reader [two_scalar_tags_field "bad"]
                  [mk_tensor "x" "IQ2_XXS" [256]%N (tensor_data ex_q)]) []
     = Raise InvalidFieldType.
Proof.
  split.
  - apply (proj1 (load_properties_agrees_with_load_file gguf_py_scalar_to_np
                    (mk_reader [uint32_array_field "rope.dims" 64 128] [ex_q]) [])
             (mk_Dataset
                {[ "schema" := PyStr "GGUF"; "rope.dims" := PyList [PyInt 64; PyInt 128] ]}
                (mk_Theta {[ "q" := QuantizedTensor Q4_1 "q" 0 [2; 32] ]}))
             [externalized "q" (tensor_data ex_q)]).
    vm_compute. reflexivity.
  - apply (proj2 (load_properties_agrees_with_load_file gguf_py_scalar_to_np
                    (mk_reader [two_scalar_tags_field "bad"]
                       [mk_tensor "x" "IQ2_XXS" [256]%N (tensor_data ex_q)]) [])).
    vm_compute. reflexivity.
Defined.

(** X20: a string field whose final segment is not UTF-8 text makes extraction
    raise the decoder's [UnicodeDecodeError]: the loader neither catches it nor
    replaces the value. *)
Theorem _load_properties_undecodable_string
    (table : GGUFValueType -> option np_dtype)
    (before after : list ReaderField) (field : ReaderField)
    (tensors : list ReaderTensor) (props : gmap string py_value) (part : ndarray) :
  _load_properties table (mk_reader before tensors) = Ok props ->
  field_types field = [STRING] ->
  py_getitem (field_parts field) (-1) = Ok part ->
  text_part part = false ->
  _load_properties table (mk_reader (before ++ field :: after) tensors) =
  Raise UnicodeDecodeError.
Proof.
  unfold _load_properties. simpl. intros Hb Ht Hpart Htext.
  apply (_load_fields_raise_at table before after field _ props); [done|].
  unfold _load_field. rewrite Ht.
  replace (py_getitem [STRING] 0) with (Ok STRING) by reflexivity.
  simpl. unfold_monad. rewrite Hpart. unfold str_utf8.
  unfold text_part in Htext. by rewrite Htext.
Qed.

Lemma _load_properties_undecodable_string_witness :
  _load_properties gguf_py_scalar_to_np
    (mk_reader ([] ++ latin1_field "general.author" :: []) [])
  = Raise UnicodeDecodeError.
Proof.
  apply (_load_properties_undecodable_string gguf_py_scalar_to_np
           [] [] (latin1_field "general.author") [] {[ "schema" := PyStr "GGUF" ]}
           (mk_ndarray np_uint8 [1] [xff])); reflexivity.
Defined.

Lemma _load_tensors_dom (descriptors : list ReaderTensor)
    (acc acc' : gmap string InferenceTensor) (h h' : heap) :
  _load_tensors descriptors acc h = Ok (acc', h') ->
  dom acc' = dom acc ∪ list_to_set (tensor_name <$> descriptors).
Proof.
  revert acc h. induction descriptors as [|tensor rest IH]; intros acc h; simpl.
  - intros [= <- <-]. set_solver.
  - unfold_monad. destruct (_load_tensor tensor h) as [[v h1]|]; [|done].
    intros Hrest. rewrite (IH _ _ Hrest), dom_insert_L. set_solver.
Qed.

Lemma size_list_to_set_NoDup (l : list string) :
  size (list_to_set l : gset string) = length l -> NoDup l.
Proof.
  induction l as [|x l IH]; [constructor|].
  rewrite list_to_set_cons. simpl. intros Hsize.
  pose proof (size_list_to_set_le l) as Hle.
  destruct (decide (x ∈ l)) as [Hin|Hnotin].
  - replace ({[x]} ∪ list_to_set l : gset string) with (list_to_set l : gset string)
      in Hsize by set_solver.
    lia.
  - rewrite size_union, size_singleton in Hsize by set_solver.
    constructor; [done|]. apply IH. lia.
Qed.

(** X21: the keys of the namespace of a full load are exactly the descriptor
    names, and there are as many keys as descriptors exactly when no name
    repeats. *)
Theorem load_file_namespace_keys
    (table : GGUFValueType -> option np_dtype) (reader : GGUFReader)
    (h h' : heap) (ds : Dataset) :
  load_file table reader h = Ok (ds, h') ->
  dom (theta_tensors (root_theta ds)) =
    list_to_set (tensor_name <$> reader_tensors reader) /\
  (size (theta_tensors (root_theta ds)) = length (reader_tensors reader) <->
   NoDup (tensor_name <$> reader_tensors reader)).
Proof.
  intros H. apply load_file_inv in H as [_ H].
  apply _load_tensors_dom in H. rewrite dom_empty_L, (left_id_L ∅ (∪)) in H.
  split; [done|].
  rewrite <- (size_dom (D:=gset string)), H. split.
  - intros Hsize. apply size_list_to_set_NoDup. by rewrite length_fmap.
  - intros Hnd. rewrite size_list_to_set by done. by rewrite length_fmap.
Qed.

Lemma load_file_namespace_keys_witness :
  let reader := mk_reader [] [ex_bf16; ex_f32] in
  let ds := mk_Dataset {[ "schema" := PyStr "GGUF" ]}
              (mk_Theta {[ "w" := DefaultPrimitiveTensor "w" 2 ]}) in
  dom (theta_tensors (root_theta ds)) =
    list_to_set (tensor_name <$> reader_tensors reader) /\
  (size (theta_tensors (root_theta ds)) = length (reader_tensors reader) <->
   NoDup (tensor_name <$> reader_tensors reader)).
Proof.
  intros reader ds.
  apply (load_file_namespace_keys gguf_py_scalar_to_np reader []
           [externalized "w" (mk_ndarray np_int16 [3; 2] (nd_buffer (tensor_data ex_bf16)));
            mk_Tensor torch_bfloat16 [3; 2] (nd_buffer (tensor_data ex_bf16)) None;
            externalized "w" (mk_ndarray np_float32 [2; 4] (nd_buffer (tensor_data ex_f32)))]
           ds).
  vm_compute. reflexivity.
Defined.
